(** * Facilities management: buildings, rooms, assets

    A shallow embedding of [src/facilities_management.py], the data-access
    class [FacilitiesManagement] over its three SQLite tables.

    Modelling conventions.
    - A Python [int] is a [Z], a [str] a [string], a [float] a primitive
      [float]; the timestamp [datetime.now().isoformat()] is an explicit
      argument [now] of each operation that reads the clock.
    - A table is the list of its rows in rowid order, the order of a table
      scan; a row is the tuple of its columns in declaration order, which is
      what building a [Building], [Room] or [Asset] from a row by position
      relies on.
    - [with sqlite3.connect(...) as conn] is a transaction: the body runs
      against the store, an exception rolls the store back and is re-raised,
      a normal exit commits.
    - The schema's [UNIQUE] on [buildings.name] is enforced; its
      [REFERENCES] clauses are not, since the code never turns the
      [foreign_keys] pragma on.
    - The driver binds the parameters of a statement before the statement
      runs, and refuses a Python [int] outside the signed 64-bit range with
      [OverflowError]. A value read from an [INTEGER] column is within that
      range and is bound unchecked.
    - A [TEXT] column holds the string it was given and an [INTEGER] column
      the integer. A [REAL] column holds the float it was given, except
      that SQLite stores NaN as [NULL], read back as [None], and reads
      negative zero back as zero.
    - Failures of the storage medium (I/O, full disk, exhausted rowids) are
      outside the model. *)

From Stdlib Require Import ZArith List String Bool Lia PrimFloat Sorted.
From Stdlib Require Ascii DecimalString.
Import ListNotations.
Open Scope Z_scope.
Open Scope string_scope.

(** ** Records *)

(** [total_sqft] is a float in a record [add_building] returns and a float
    or [None] in a record read from the table. *)
Module Building.
Record t := mk
  { id : Z; name : string; address : string; floors : Z;
    total_sqft : option float; building_type : string; created_at : string;
    active : Z }.
End Building.

Module Room.
Record t := mk
  { id : Z; building_id : Z; name : string; floor : Z; capacity : Z;
    room_type : string; status : string; created_at : string }.
End Room.

Module Asset.
Record t := mk
  { id : Z; room_id : Z; name : string; asset_type : string;
    serial_number : string; purchase_date : string; condition : string;
    last_inspected : string; notes : string }.
End Asset.

(** ** The store *)

(** Rows, columns in the order of the [CREATE TABLE] statements. *)
Definition building_row : Type :=
  (Z * string * string * Z * option float * string * string * Z)%type.
Definition room_row : Type :=
  (Z * Z * string * Z * Z * string * string * string)%type.
Definition asset_row : Type :=
  (Z * Z * string * string * string * string * string * string * string)%type.

(** The database file: the three tables and, for each, the counter that
    [AUTOINCREMENT] keeps in [sqlite_sequence]. *)
Record store := mkStore
  { tbl_buildings : list building_row;
    tbl_rooms : list room_row;
    tbl_assets : list asset_row;
    seq_buildings : Z;
    seq_rooms : Z;
    seq_assets : Z }.

(** What [_init_db] leaves when the file did not exist. *)
Definition empty_store : store := mkStore [] [] [] 0 0 0.

(** Column accessors. *)
Definition building_rowid (r : building_row) : Z :=
  let '(i, _, _, _, _, _, _, _) := r in i.
Definition building_row_name (r : building_row) : string :=
  let '(_, n, _, _, _, _, _, _) := r in n.
Definition building_row_active (r : building_row) : Z :=
  let '(_, _, _, _, _, _, _, a) := r in a.
Definition room_rowid (r : room_row) : Z :=
  let '(i, _, _, _, _, _, _, _) := r in i.
Definition room_row_building_id (r : room_row) : Z :=
  let '(_, b, _, _, _, _, _, _) := r in b.
Definition room_row_status (r : room_row) : string :=
  let '(_, _, _, _, _, _, s, _) := r in s.
Definition asset_rowid (r : asset_row) : Z :=
  let '(i, _, _, _, _, _, _, _, _) := r in i.
Definition asset_row_room_id (r : asset_row) : Z :=
  let '(_, q, _, _, _, _, _, _, _) := r in q.

(** A record from a row, by position: the unpacking call of the source. *)
Definition Building_of_row (r : building_row) : Building.t :=
  let '(i, n, a, f, q, t, c, act) := r in Building.mk i n a f q t c act.
Definition Room_of_row (r : room_row) : Room.t :=
  let '(i, b, n, f, c, t, s, ca) := r in Room.mk i b n f c t s ca.
Definition Asset_of_row (r : asset_row) : Asset.t :=
  let '(i, q, n, t, sn, pd, c, li, nt) := r in Asset.mk i q n t sn pd c li nt.

(** ** Exceptions and transactions *)

Inductive error :=
| ValueError (msg : string)
| IntegrityError (msg : string)
| OverflowError (msg : string)
| TypeError (msg : string).

(** How a method call ends. *)
Inductive outcome (A : Type) :=
| Return (a : A)
| Raise (e : error).
Arguments Return {A} a.
Arguments Raise {A} e.

(** Code running on an open connection. *)
Definition Conn (A : Type) : Type := store -> error + (A * store).

Definition ret {A} (a : A) : Conn A := fun s => inr (a, s).
Definition raise {A} (e : error) : Conn A := fun _ => inl e.
Definition bind {A B} (m : Conn A) (k : A -> Conn B) : Conn B :=
  fun s => match m s with
           | inl e => inl e
           | inr (a, s') => k a s'
           end.

Declare Scope conn_scope.
Delimit Scope conn_scope with conn.
Notation "x <- m ;; k" := (bind m (fun x => k))
  (at level 100, m at next level, right associativity) : conn_scope.

(** [with sqlite3.connect(self.db_path) as conn: body]. *)
Definition with_connect {A} (body : Conn A) (s : store) : outcome A * store :=
  match body s with
  | inl e => (Raise e, s)
  | inr (a, s') => (Return a, s')
  end.

(** ** SQL statements *)

(** The integers SQLite stores. *)
Definition int64 (z : Z) : bool := (- 2 ^ 63 <=? z)%Z && (z <? 2 ^ 63)%Z.

(** [conn.execute(sql, params)]: the integers among the parameters are
    bound first, then the statement runs. *)
Definition binding {A} (params : list Z) (statement : Conn A) : Conn A :=
  fun s =>
    if forallb int64 params then statement s
    else inl (OverflowError "Python int too large to convert to SQLite INTEGER").

(** What a [REAL] column gives back for a float put in it. *)
Definition real_column (x : float) : option float :=
  if is_nan x then None
  else if is_zero x then Some zero
  else Some x.

(** The rowid an [AUTOINCREMENT] table gives its next row: one more than the
    largest rowid the table holds or has ever held. *)
Definition max_rowid (ids : list Z) : Z := fold_right Z.max 0 ids.
Definition next_rowid (seq : Z) (ids : list Z) : Z :=
  Z.max seq (max_rowid ids) + 1.

(** [SELECT id FROM buildings WHERE name=?] followed by [fetchone()]. *)
Definition select_building_id (nm : string) : Conn (option Z) :=
  fun s =>
    inr (match filter (fun r => building_row_name r =? nm) (tbl_buildings s) with
         | [] => None
         | r :: _ => Some (building_rowid r)
         end, s).

(** [INSERT INTO buildings (name,address,floors,total_sqft,building_type,
    created_at)]; [id] and [active] take their defaults. Yields
    [cur.lastrowid]. *)
Definition insert_building (nm addr : string) (fl : Z) (sqft : float)
    (ty now : string) : Conn Z :=
  binding [fl] (fun s =>
    if existsb (fun r => building_row_name r =? nm) (tbl_buildings s)
    then inl (IntegrityError "UNIQUE constraint failed: buildings.name")
    else
      let i := next_rowid (seq_buildings s) (map building_rowid (tbl_buildings s)) in
      inr (i, mkStore (tbl_buildings s
                         ++ [(i, nm, addr, fl, real_column sqft, ty, now, 1)])
                      (tbl_rooms s) (tbl_assets s)
                      i (seq_rooms s) (seq_assets s))).

(** [INSERT INTO rooms (building_id,name,floor,capacity,room_type,
    created_at)]; [status] takes its default ['available']. The building id
    was read from the table. *)
Definition insert_room (bid : Z) (nm : string) (fl cap : Z) (ty now : string)
    : Conn Z :=
  binding [fl; cap] (fun s =>
    let i := next_rowid (seq_rooms s) (map room_rowid (tbl_rooms s)) in
    inr (i, mkStore (tbl_buildings s)
                    (tbl_rooms s ++ [(i, bid, nm, fl, cap, ty, "available", now)])
                    (tbl_assets s)
                    (seq_buildings s) i (seq_assets s))).

(** [INSERT INTO assets (room_id,name,asset_type,serial_number,
    purchase_date,condition,last_inspected,notes)]. *)
Definition insert_asset (rid : Z) (nm ty sn pd cond li nt : string) : Conn Z :=
  binding [rid] (fun s =>
    let i := next_rowid (seq_assets s) (map asset_rowid (tbl_assets s)) in
    inr (i, mkStore (tbl_buildings s) (tbl_rooms s)
                    (tbl_assets s ++ [(i, rid, nm, ty, sn, pd, cond, li, nt)])
                    (seq_buildings s) (seq_rooms s) i)).

(** [SELECT * FROM t] and [SELECT * FROM t WHERE c], with [fetchall()]. *)
Definition select_buildings (w : building_row -> bool)
    : Conn (list building_row) :=
  fun s => inr (filter w (tbl_buildings s), s).
Definition select_rooms (w : room_row -> bool) : Conn (list room_row) :=
  fun s => inr (filter w (tbl_rooms s), s).
Definition select_assets (w : asset_row -> bool) : Conn (list asset_row) :=
  fun s => inr (filter w (tbl_assets s), s).

(** [SELECT COUNT( * ) FROM t WHERE c], with [fetchone()[0]]. *)
Definition count_buildings (w : building_row -> bool) : Conn Z :=
  fun s => inr (Z.of_nat (List.length (filter w (tbl_buildings s))), s).
Definition count_rooms (w : room_row -> bool) : Conn Z :=
  fun s => inr (Z.of_nat (List.length (filter w (tbl_rooms s))), s).
Definition count_assets (w : asset_row -> bool) : Conn Z :=
  fun s => inr (Z.of_nat (List.length (filter w (tbl_assets s))), s).

(** The [WHERE] clauses of the source; [all] stands for no clause. *)
Definition all {A} (_ : A) : bool := true.
Definition where_active (r : building_row) : bool := (building_row_active r =? 1)%Z.
Definition where_building_id (b : Z) (r : room_row) : bool :=
  (room_row_building_id r =? b)%Z.
Definition where_available (r : room_row) : bool :=
  (room_row_status r =? "available")%string.
Definition where_room_id (q : Z) (r : asset_row) : bool :=
  (asset_row_room_id r =? q)%Z.

(** [SELECT * FROM assets WHERE room_id=?], the room id being an argument
    of the caller. *)
Definition select_assets_of_room (q : Z) : Conn (list asset_row) :=
  binding [q] (select_assets (where_room_id q)).

(** ** Python values *)

(** Truth value of an optional [str] argument: [None] and the empty string
    are false. *)
Definition truthy_str (o : option string) : bool :=
  match o with
  | None => false
  | Some x => negb (x =? "")%string
  end.

(** Truth value of an optional [int] argument: [None] and [0] are false. *)
Definition truthy_int (o : option Z) : bool :=
  match o with
  | None => false
  | Some n => negb (n =? 0)%Z
  end.

(** A value held by a field of a dataclass. *)
Inductive value :=
| VNone
| VInt (n : Z)
| VFloat (x : float)
| VStr (x : string).

(** A plain field mapping, keys in field order. *)
Definition dict : Type := list (string * value).

(** [dataclasses.asdict], one definition per dataclass. *)
Definition asdict_Building (b : Building.t) : dict :=
  [ ("id", VInt (Building.id b)); ("name", VStr (Building.name b));
    ("address", VStr (Building.address b)); ("floors", VInt (Building.floors b));
    ("total_sqft", match Building.total_sqft b with
                   | Some x => VFloat x
                   | None => VNone
                   end);
    ("building_type", VStr (Building.building_type b));
    ("created_at", VStr (Building.created_at b));
    ("active", VInt (Building.active b)) ].

Definition asdict_Room (r : Room.t) : dict :=
  [ ("id", VInt (Room.id r)); ("building_id", VInt (Room.building_id r));
    ("name", VStr (Room.name r)); ("floor", VInt (Room.floor r));
    ("capacity", VInt (Room.capacity r)); ("room_type", VStr (Room.room_type r));
    ("status", VStr (Room.status r)); ("created_at", VStr (Room.created_at r)) ].

Definition asdict_Asset (a : Asset.t) : dict :=
  [ ("id", VInt (Asset.id a)); ("room_id", VInt (Asset.room_id a));
    ("name", VStr (Asset.name a)); ("asset_type", VStr (Asset.asset_type a));
    ("serial_number", VStr (Asset.serial_number a));
    ("purchase_date", VStr (Asset.purchase_date a));
    ("condition", VStr (Asset.condition a));
    ("last_inspected", VStr (Asset.last_inspected a));
    ("notes", VStr (Asset.notes a)) ].

(** The dictionary [status] returns. *)
Module Summary.
Record t := mk
  { active_buildings : Z; total_rooms : Z; available_rooms : Z;
    total_assets : Z; db_path : string }.
End Summary.

(** The dictionary [export_data] returns. *)
Module Dump.
Record t := mk
  { buildings : list dict; rooms : list dict; assets : list dict;
    exported_at : string }.
End Dump.

(** ** The methods of [FacilitiesManagement] *)

Section Methods.
Local Open Scope conn_scope.

Definition add_building (name address : string) (floors : Z) (sqft : float)
    (building_type : string) (now : string) : store -> outcome Building.t * store :=
  with_connect
    (lastrowid <- insert_building name address floors sqft building_type now ;;
     ret (Building.mk lastrowid name address floors (Some sqft) building_type
                      now 1)).

Definition add_room (building_name room_name : string) (floor capacity : Z)
    (room_type : string) (now : string) : store -> outcome Room.t * store :=
  with_connect
    (b <- select_building_id building_name ;;
     match b with
     | None => raise (ValueError ("Building '" ++ building_name ++ "' not found"))
     | Some b0 =>
         lastrowid <- insert_room b0 room_name floor capacity room_type now ;;
         ret (Room.mk lastrowid b0 room_name floor capacity room_type
                      "available" now)
     end).

Definition add_asset (room_id : Z) (name asset_type serial_number
    purchase_date condition notes : string) (now : string)
    : store -> outcome Asset.t * store :=
  with_connect
    (lastrowid <- insert_asset room_id name asset_type serial_number
                               purchase_date condition now notes ;;
     ret (Asset.mk lastrowid room_id name asset_type serial_number
                   purchase_date condition now notes)).

Definition list_buildings : store -> outcome (list Building.t) * store :=
  with_connect
    (rows <- select_buildings where_active ;;
     ret (map Building_of_row rows)).

Definition list_rooms (building_name : option string)
    : store -> outcome (list Room.t) * store :=
  with_connect
    (match building_name with
     | Some n =>
         if truthy_str building_name then
           b <- select_building_id n ;;
           match b with
           | None => ret []
           | Some b0 =>
               rows <- select_rooms (where_building_id b0) ;;
               ret (map Room_of_row rows)
           end
         else
           rows <- select_rooms all ;;
           ret (map Room_of_row rows)
     | None =>
         rows <- select_rooms all ;;
         ret (map Room_of_row rows)
     end).

Definition list_assets (room_id : option Z)
    : store -> outcome (list Asset.t) * store :=
  with_connect
    (match room_id with
     | Some q =>
         if truthy_int room_id then
           rows <- select_assets_of_room q ;;
           ret (map Asset_of_row rows)
         else
           rows <- select_assets all ;;
           ret (map Asset_of_row rows)
     | None =>
         rows <- select_assets all ;;
         ret (map Asset_of_row rows)
     end).

Definition status (db_path : string) : store -> outcome Summary.t * store :=
  with_connect
    (buildings <- count_buildings where_active ;;
     rooms <- count_rooms all ;;
     assets <- count_assets all ;;
     avail <- count_rooms where_available ;;
     ret (Summary.mk buildings rooms avail assets db_path)).

Definition export_data (now : string) : store -> outcome Dump.t * store :=
  with_connect
    (buildings <- select_buildings all ;;
     rooms <- select_rooms all ;;
     assets <- select_assets all ;;
     ret (Dump.mk (map asdict_Building (map Building_of_row buildings))
                  (map asdict_Room (map Room_of_row rooms))
                  (map asdict_Asset (map Asset_of_row assets))
                  now)).
End Methods.

(** ** Sessions *)

(** A mutating call of the command-line interface, with its arguments. *)
Inductive command :=
| AddBuilding (name address : string) (floors : Z) (sqft : float)
              (building_type : string)
| AddRoom (building_name room_name : string) (floor capacity : Z)
          (room_type : string)
| AddAsset (room_id : Z) (name asset_type serial_number purchase_date
            condition notes : string).

(** What a mutating call created. *)
Inductive created :=
| CBuilding (b : Building.t)
| CRoom (r : Room.t)
| CAsset (a : Asset.t).

Definition lift {A B} (f : A -> B) (r : outcome A * store) : outcome B * store :=
  match r with
  | (Return a, s) => (Return (f a), s)
  | (Raise e, s) => (Raise e, s)
  end.

(** One call, made at time [now]. *)
Definition step (now : string) (c : command) (s : store)
    : outcome created * store :=
  match c with
  | AddBuilding n a f q t => lift CBuilding (add_building n a f q t now s)
  | AddRoom bn rn f c t => lift CRoom (add_room bn rn f c t now s)
  | AddAsset q n t sn pd c nt => lift CAsset (add_asset q n t sn pd c nt now s)
  end.

(** A session: calls made one after the other, each at its own time. The
    result is the outcomes in order and the store the session leaves. *)
Fixpoint run (cs : list (string * command)) (s : store)
    : list (outcome created) * store :=
  match cs with
  | [] => ([], s)
  | (now, c) :: cs' =>
      let '(o, s1) := step now c s in
      let '(os, s2) := run cs' s1 in
      (o :: os, s2)
  end.

(** The records a session created. *)
Definition created_buildings (os : list (outcome created)) : list Building.t :=
  flat_map (fun o => match o with Return (CBuilding b) => [b] | _ => [] end) os.
Definition created_rooms (os : list (outcome created)) : list Room.t :=
  flat_map (fun o => match o with Return (CRoom r) => [r] | _ => [] end) os.
Definition created_assets (os : list (outcome created)) : list Asset.t :=
  flat_map (fun o => match o with Return (CAsset a) => [a] | _ => [] end) os.

(** ** Well-formed stores *)

(** Rowids grow along a table scan. *)
Fixpoint increasing (l : list Z) : bool :=
  match l with
  | [] => true
  | x :: l' =>
      match l' with
      | [] => true
      | y :: _ => (x <? y)%Z && increasing l'
      end
  end.

(** No string occurs twice. *)
Fixpoint distinct (l : list string) : bool :=
  match l with
  | [] => true
  | x :: l' => negb (existsb (String.eqb x) l') && distinct l'
  end.

(** What the schema guarantees of every database file: [id] is the rowid of
    its table, which a scan follows, and [buildings.name] is [UNIQUE]. *)
Definition wf (s : store) : bool :=
  increasing (map building_rowid (tbl_buildings s))
  && increasing (map room_rowid (tbl_rooms s))
  && increasing (map asset_rowid (tbl_assets s))
  && distinct (map building_row_name (tbl_buildings s)).

(** ** The records a store holds *)

(** Every row of a table, read as the source reads rows. *)
Definition all_buildings (s : store) : list Building.t :=
  map Building_of_row (tbl_buildings s).
Definition all_rooms (s : store) : list Room.t :=
  map Room_of_row (tbl_rooms s).
Definition all_assets (s : store) : list Asset.t :=
  map Asset_of_row (tbl_assets s).

(** The record a listing or an export gives for a building that
    [add_building] returned: the same but for [total_sqft], which went
    through the [REAL] column. *)
Definition as_stored (b : Building.t) : Building.t :=
  Building.mk (Building.id b) (Building.name b) (Building.address b)
              (Building.floors b)
              (match Building.total_sqft b with
               | Some x => real_column x
               | None => None
               end)
              (Building.building_type b) (Building.created_at b)
              (Building.active b).

(** ** Sample stores *)

(** The scenario of the command-line interface: one building, one room in
    it, one asset in that room. *)
Definition hq_session : list (string * command) :=
  [ ("2024-05-01T09:00:00", AddBuilding "HQ" "" 5 0%float "office");
    ("2024-05-01T09:01:00", AddRoom "HQ" "Room 101" 1 20 "office");
    ("2024-05-01T09:02:00",
     AddAsset 1 "Projector" "equipment" "" "" "fair" "") ].

Definition hq_store : store := snd (run hq_session empty_store).

(** A database file edited by other means: the second building is switched
    off, its room is in use, and an asset points at no room. *)
Definition annex_store : store :=
  mkStore
    [ (1, "HQ", "1 Main St", 5, Some 0%float, "office",
       "2024-05-01T09:00:00", 1);
      (2, "Annex", "", 1, Some 0%float, "storage", "2024-05-02T10:00:00", 0) ]
    [ (1, 1, "Room 101", 1, 20, "office", "available", "2024-05-01T09:01:00");
      (2, 2, "Vault", 1, 2, "storage", "occupied", "2024-05-02T10:05:00") ]
    [ (1, 1, "Projector", "equipment", "", "", "fair", "2024-05-01T09:02:00", "");
      (2, 7, "Ladder", "equipment", "", "", "good", "2024-05-03T08:00:00", "") ]
    2 2 2.

(** Two buildings, three rooms across them, five assets; a repeated name
    and an unknown building are turned down on the way. *)
Definition campus_session : list (string * command) :=
  [ ("2024-06-01T08:00:00", AddBuilding "North" "1 North Rd" 3 5400.5%float "office");
    ("2024-06-01T08:01:00", AddBuilding "South" "" 1 0%float "warehouse");
    ("2024-06-01T08:02:00", AddBuilding "North" "" 1 0%float "office");
    ("2024-06-01T08:03:00", AddRoom "North" "N-101" 1 12 "office");
    ("2024-06-01T08:04:00", AddRoom "North" "N-201" 2 30 "conference");
    ("2024-06-01T08:05:00", AddRoom "East" "E-1" 1 10 "office");
    ("2024-06-01T08:06:00", AddRoom "South" "Dock" 1 4 "storage");
    ("2024-06-01T08:07:00", AddAsset 1 "Desk" "furniture" "D-1" "" "good" "");
    ("2024-06-01T08:08:00", AddAsset 1 "Chair" "furniture" "C-1" "" "good" "");
    ("2024-06-01T08:09:00", AddAsset 2 "Screen" "equipment" "S-9" "" "fair" "");
    ("2024-06-01T08:10:00", AddAsset 3 "Forklift" "vehicle" "F-2" "" "poor" "");
    ("2024-06-01T08:11:00", AddAsset 0 "Crate" "equipment" "" "" "good" "") ].

(** ** The schema initializer *)

(** [_init_db] on the database file, [None] when the file does not exist
    yet: [CREATE TABLE IF NOT EXISTS] makes the three empty tables of a new
    file and leaves the tables of an existing one alone. *)
Definition _init_db (file : option store) : store :=
  match file with
  | None => empty_store
  | Some s => s
  end.

(** ** The presentation shell *)

(** The escape character written [\033] in the source. *)
Definition ESC : string := String (Ascii.ascii_of_nat 27) "".

(** The line feed written [\n] in the source. *)
Definition NL : string := String (Ascii.ascii_of_nat 10) "".

Definition GREEN : string := ESC ++ "[0;32m".
Definition RED : string := ESC ++ "[0;31m".
Definition CYAN : string := ESC ++ "[0;36m".
Definition YELLOW : string := ESC ++ "[1;33m".
Definition BLUE : string := ESC ++ "[0;34m".
Definition BOLD : string := ESC ++ "[1m".
Definition NC : string := ESC ++ "[0m".

(** [str] of an [int], as an f-string field shows it. *)
Definition str_int (z : Z) : string :=
  DecimalString.NilZero.string_of_int (Z.to_int z).

(** [d.get(k, default)] on a dictionary literal. *)
Fixpoint dict_get (d : list (string * string)) (k default : string) : string :=
  match d with
  | [] => default
  | (k', v) :: d' => if k' =? k then v else dict_get d' k default
  end.

Definition _cond_color (cond : string) : string :=
  dict_get [ ("excellent", GREEN); ("good", CYAN); ("fair", YELLOW);
             ("poor", RED) ] cond NC.

(** What one run of the program leaves: the strings handed to [print], in
    order, the exception that ended it if one did, and the database file. *)
Record terminal := mkTerminal
  { printed : list string;
    uncaught : option error;
    database : store }.

(** The namespace [parse_args] returns, by sub-command; [Args_none] is a
    command line without sub-command, where [args.cmd] is [None]. *)
Inductive args :=
| Args_none
| Args_status
| Args_export
| Args_list (target : string) (building : option string) (room_id : option Z)
| Args_add_building (name address : string) (floors : Z) (sqft : float)
                    (building_type : string)
| Args_add_room (building room_name : string) (floor capacity : Z)
                (room_type : string)
| Args_add_asset (room_id : Z) (name asset_type serial condition
                  notes : string).

(** A method call of [main], then what [main] prints from its result and
    the exception that printing ends in, if any; an exception of the method
    ends the run before anything is printed. *)
Definition calling {A} (r : outcome A * store)
    (k : A -> list string * option error) : terminal :=
  match r with
  | (Return a, s) => mkTerminal (fst (k a)) (snd (k a)) s
  | (Raise e, s) => mkTerminal [] (Some e) s
  end.

(** [[f(x) for x in items]], where [f(x)] prints one line and returns
    [None], or raises: the lines printed, and the exception that stopped the
    loop if one did. *)
Fixpoint printing {A} (f : A -> outcome string) (items : list A)
    : list string * option error :=
  match items with
  | [] => ([], None)
  | x :: items' =>
      match f x with
      | Return line =>
          (line :: fst (printing f items'), snd (printing f items'))
      | Raise e => ([], Some e)
      end
  end.

(** [... or print(none)]: the list the loop built is empty, hence false,
    when there was no item; the one line "none" is printed then. *)
Definition lines_or_none (lines : list string) : list string :=
  match lines with
  | [] => [ "  " ++ YELLOW ++ "none" ++ NC ]
  | _ :: _ => lines
  end.

(** A listing: the heading, then the loop over the items and, if the loop
    came to its end, the test for "none". *)
Definition listing {A} (head : string) (f : A -> outcome string)
    (items : list A) : list string * option error :=
  match snd (printing f items) with
  | None => (head :: lines_or_none (fst (printing f items)), None)
  | Some e => (head :: fst (printing f items), Some e)
  end.

Section Shell.

(** What the source leaves to Python: [format(x, ".0f")] of a float,
    [json.dumps(d, indent=2)], the help text of the parser and the path of
    the database file under the user's home directory. *)
Variable format_0f : float -> string.
Variable json_dumps : Dump.t -> string.
Variable help_text : string.
Variable DB_PATH : string.

(** The line [_fmt_building] prints; the format [.0f] is refused for
    [None]. *)
Definition _fmt_building (b : Building.t) : outcome string :=
  match Building.total_sqft b with
  | Some x =>
      Return
        ("  " ++ CYAN ++ "[" ++ str_int (Building.id b) ++ "]" ++ NC ++ " "
         ++ BOLD ++ Building.name b ++ NC ++ "  " ++ Building.address b
         ++ "  floors=" ++ str_int (Building.floors b) ++ "  "
         ++ format_0f x ++ "sqft  type=" ++ YELLOW
         ++ Building.building_type b ++ NC)
  | None =>
      Raise (TypeError
               "unsupported format string passed to NoneType.__format__")
  end.

(** The line [_fmt_room] prints. *)
Definition _fmt_room (r : Room.t) : string :=
  let sc := if Room.status r =? "available" then GREEN else YELLOW in
  "  " ++ CYAN ++ "[" ++ str_int (Room.id r) ++ "]" ++ NC ++ " "
  ++ BOLD ++ Room.name r ++ NC ++ "  floor=" ++ str_int (Room.floor r)
  ++ "  cap=" ++ str_int (Room.capacity r) ++ "  type=" ++ YELLOW
  ++ Room.room_type r ++ NC ++ "  [" ++ sc ++ Room.status r ++ NC ++ "]".

(** The line [_fmt_asset] prints. *)
Definition _fmt_asset (a : Asset.t) : string :=
  let cc := _cond_color (Asset.condition a) in
  "  " ++ CYAN ++ "[" ++ str_int (Asset.id a) ++ "]" ++ NC ++ " "
  ++ BOLD ++ Asset.name a ++ NC ++ "  type=" ++ YELLOW
  ++ Asset.asset_type a ++ NC ++ "  s/n=" ++ Asset.serial_number a
  ++ "  condition=" ++ cc ++ Asset.condition a ++ NC.

(** The lines the [status] branch prints, one per key in the order of the
    dictionary. *)
Definition status_lines (st : Summary.t) : list string :=
  map (fun kv => "  " ++ CYAN ++ fst kv ++ NC ++ ": " ++ GREEN ++ snd kv ++ NC)
      [ ("active_buildings", str_int (Summary.active_buildings st));
        ("total_rooms", str_int (Summary.total_rooms st));
        ("available_rooms", str_int (Summary.available_rooms st));
        ("total_assets", str_int (Summary.total_assets st));
        ("db_path", Summary.db_path st) ].

(** The heading of a listing; [n] is [len(items)]. *)
Definition heading (what : string) (n : nat) (label : string) : string :=
  NL ++ BOLD ++ BLUE ++ what ++ " (" ++ str_int (Z.of_nat n) ++ ")"
  ++ label ++ NC.

(** [main], from the parsed command line on: [FacilitiesManagement()] opens
    the database and runs [_init_db], then the branch of the sub-command
    runs at time [now]. *)
Definition main (a : args) (now : string) (file : option store) : terminal :=
  let s := _init_db file in
  match a with
  | Args_list target building room_id =>
      if target =? "buildings" then
        calling (list_buildings s) (fun items =>
          listing (heading "Buildings" (List.length items) "")
                  _fmt_building items)
      else if target =? "rooms" then
        calling (list_rooms building s) (fun items =>
          let label :=
            match building with
            | Some b => if truthy_str building then "building=" ++ b
                        else "all buildings"
            | None => "all buildings"
            end in
          listing (heading "Rooms" (List.length items) (" — " ++ label))
                  (fun r => Return (_fmt_room r)) items)
      else
        calling (list_assets room_id s) (fun items =>
          let label :=
            match room_id with
            | Some q => if truthy_int room_id then "room=" ++ str_int q
                        else "all rooms"
            | None => "all rooms"
            end in
          listing (heading "Assets" (List.length items) (" — " ++ label))
                  (fun x => Return (_fmt_asset x)) items)
  | Args_add_building name address floors sqft building_type =>
      calling (add_building name address floors sqft building_type now s)
        (fun b =>
          ([ GREEN ++ "✓" ++ NC ++ " Building " ++ BOLD ++ Building.name b
             ++ NC ++ " registered (id=" ++ str_int (Building.id b) ++ ")" ],
           None))
  | Args_add_room building room_name floor capacity room_type =>
      calling (add_room building room_name floor capacity room_type now s)
        (fun r =>
          ([ GREEN ++ "✓" ++ NC ++ " Room " ++ BOLD ++ Room.name r ++ NC
             ++ " added (id=" ++ str_int (Room.id r) ++ ")" ], None))
  | Args_add_asset room_id name asset_type serial condition notes =>
      calling (add_asset room_id name asset_type serial "" condition notes
                         now s)
        (fun x =>
          ([ GREEN ++ "✓" ++ NC ++ " Asset " ++ BOLD ++ Asset.name x ++ NC
             ++ " registered (id=" ++ str_int (Asset.id x) ++ ")" ], None))
  | Args_status =>
      calling (status DB_PATH s) (fun st =>
        ((NL ++ BOLD ++ BLUE ++ "Facilities Management Status" ++ NC)
         :: status_lines st, None))
  | Args_export =>
      calling (export_data now s) (fun d => ([ json_dumps d ], None))
  | Args_none =>
      mkTerminal [ help_text ] None s
  end.

End Shell.

(** ** Referential integrity *)

(** Every room of the store names, by [building_id], a building of the
    store. *)
Definition rooms_reference_buildings (s : store) : Prop :=
  forall r, In r (all_rooms s) ->
  exists b, In b (all_buildings s) /\ Building.id b = Room.building_id r.

(** The number of rows of a store. *)
Definition rows (s : store) : nat :=
  (List.length (all_buildings s) + List.length (all_rooms s)
   + List.length (all_assets s))%nat.

(** ** Consecutive identifiers *)

(** The rowids of a table are 1, 2, ..., n in scan order and the counter of
    the table stands at n. *)
Definition consecutive (ids : list Z) (counter : Z) : Prop :=
  ids = map Z.of_nat (seq 1 (List.length ids))
  /\ counter = Z.of_nat (List.length ids).

Definition dense (s : store) : Prop :=
  consecutive (map building_rowid (tbl_buildings s)) (seq_buildings s)
  /\ consecutive (map room_rowid (tbl_rooms s)) (seq_rooms s)
  /\ consecutive (map asset_rowid (tbl_assets s)) (seq_assets s).

(** * Properties *)

Open Scope list_scope.

(** ** Rowids *)

Lemma max_rowid_nonneg (ids : list Z) : 0 <= max_rowid ids.
Proof.
  induction ids as [|x ids IH]; simpl; lia.
Qed.

Lemma max_rowid_ge (ids : list Z) (i : Z) : In i ids -> i <= max_rowid ids.
Proof.
  induction ids as [|x ids IH]; simpl; [tauto|].
  intros [->|H]; [lia|]. specialize (IH H). lia.
Qed.

Lemma next_rowid_pos (seq : Z) (ids : list Z) : 0 < next_rowid seq ids.
Proof.
  unfold next_rowid. pose proof (max_rowid_nonneg ids). lia.
Qed.

Lemma next_rowid_fresh (seq : Z) (ids : list Z) (i : Z) :
  In i ids -> i < next_rowid seq ids.
Proof.
  intros H. apply max_rowid_ge in H. unfold next_rowid. lia.
Qed.

(** ** Scan order and uniqueness *)

Lemma increasing_cons (x : Z) (l : list Z) :
  increasing (x :: l) = true ->
  increasing l = true /\ forall y, In y l -> x < y.
Proof.
  revert x. induction l as [|y l IH]; intros x H.
  - split; [reflexivity | intros ? []].
  - change (((x <? y)%Z && increasing (y :: l)) = true) in H.
    apply andb_true_iff in H as [Hxy Hl]. apply Z.ltb_lt in Hxy.
    split; [exact Hl|].
    destruct (IH y Hl) as [_ Hy].
    intros z [<-|Hz]; [exact Hxy|]. specialize (Hy z Hz). lia.
Qed.

Lemma increasing_sorted (l : list Z) :
  increasing l = true -> StronglySorted Z.lt l.
Proof.
  induction l as [|x l IH]; intros H; constructor.
  - apply IH. apply (increasing_cons x l H).
  - apply Forall_forall. apply (increasing_cons x l H).
Qed.

Lemma increasing_snoc (l : list Z) (x : Z) :
  increasing l = true -> (forall y, In y l -> y < x) ->
  increasing (l ++ [x]) = true.
Proof.
  induction l as [|a l IH]; intros Hl Hx; [reflexivity|].
  destruct l as [|b l].
  - simpl. rewrite andb_true_r. apply Z.ltb_lt. apply Hx. now left.
  - change (((a <? b)%Z && increasing (b :: l)) = true) in Hl.
    apply andb_true_iff in Hl as [Hab Hl].
    change (((a <? b)%Z && increasing ((b :: l) ++ [x])) = true).
    rewrite Hab. simpl andb. apply IH; [exact Hl|].
    intros y Hy. apply Hx. now right.
Qed.

Lemma existsb_eqb_In (x : string) (l : list string) :
  existsb (String.eqb x) l = true <-> In x l.
Proof.
  rewrite existsb_exists. split.
  - intros (y & Hy & E). apply String.eqb_eq in E. now subst.
  - intros H. exists x. split; [exact H | apply String.eqb_refl].
Qed.

Lemma distinct_NoDup (l : list string) : distinct l = true <-> NoDup l.
Proof.
  induction l as [|x l IH]; simpl.
  - split; [constructor | reflexivity].
  - rewrite andb_true_iff, negb_true_iff, IH. split.
    + intros [Hx Hl]. constructor; [|exact Hl].
      rewrite <- existsb_eqb_In, Hx. discriminate.
    + intros H. inversion H as [|? ? Hx Hl]; subst. split; [|exact Hl].
      destruct (existsb (String.eqb x) l) eqn:E; [|reflexivity].
      apply existsb_eqb_In in E. contradiction.
Qed.

Lemma NoDup_snoc (l : list string) (x : string) :
  NoDup l -> ~ In x l -> NoDup (l ++ [x]).
Proof.
  induction l as [|a l IH]; intros Hl Hx; simpl.
  - constructor; [intros [] | constructor].
  - inversion Hl as [|? ? Ha Hl']; subst. constructor.
    + rewrite in_app_iff. intros [H|[H|[]]]; [contradiction|].
      apply Hx. now left.
    + apply IH; [exact Hl'|]. intros H. apply Hx. now right.
Qed.

(** The [UNIQUE] check of [insert_building], read on the names. *)
Lemma name_taken_iff (nm : string) (t : list building_row) :
  existsb (fun r => building_row_name r =? nm) t = true <->
  In nm (map building_row_name t).
Proof.
  rewrite existsb_exists, in_map_iff. split.
  - intros (r & Hr & E). apply String.eqb_eq in E. now exists r.
  - intros (r & E & Hr). exists r. split; [exact Hr | now apply String.eqb_eq].
Qed.

Lemma name_free_iff (nm : string) (t : list building_row) :
  existsb (fun r => building_row_name r =? nm) t = false <->
  forall r, In r t -> building_row_name r <> nm.
Proof.
  split.
  - intros E r Hr Hn.
    assert (H : existsb (fun r => building_row_name r =? nm) t = true).
    { apply name_taken_iff, in_map_iff. now exists r. }
    congruence.
  - intros H. destruct (existsb _ t) eqn:E; [|reflexivity].
    apply name_taken_iff, in_map_iff in E as (r & E & Hr).
    now destruct (H r Hr).
Qed.

(** ** Looking a building up by name *)

Lemma lookup_absent (nm : string) (t : list building_row) :
  (forall r, In r t -> building_row_name r <> nm) ->
  filter (fun r => building_row_name r =? nm) t = [].
Proof.
  induction t as [|r t IH]; intros H; [reflexivity|]. simpl.
  destruct (String.eqb_spec (building_row_name r) nm) as [E|_].
  - destruct (H r (or_introl eq_refl) E).
  - apply IH. intros r' Hr'. apply H. now right.
Qed.

Lemma lookup_unique (nm : string) (t : list building_row) (r : building_row) :
  NoDup (map building_row_name t) -> In r t -> building_row_name r = nm ->
  filter (fun r => building_row_name r =? nm) t = [r].
Proof.
  induction t as [|a t IH]; intros Hnd Hin Hn; [destruct Hin|].
  simpl in Hnd. inversion Hnd as [|? ? Ha Ht]; subst. simpl.
  destruct Hin as [->|Hin].
  - rewrite String.eqb_refl. f_equal. apply lookup_absent.
    intros r' Hr' E. apply Ha. rewrite <- E. now apply in_map.
  - destruct (String.eqb_spec (building_row_name a) (building_row_name r)) as [E|_].
    + exfalso. apply Ha. rewrite E. now apply in_map.
    + now apply IH.
Qed.

(** ** What each mutating method computes *)

Lemma add_building_fresh (s : store) (n a : string) (f : Z) (q : float)
    (t now : string) :
  int64 f = true ->
  existsb (fun r => building_row_name r =? n) (tbl_buildings s) = false ->
  let i := next_rowid (seq_buildings s) (map building_rowid (tbl_buildings s)) in
  add_building n a f q t now s =
  (Return (Building.mk i n a f (Some q) t now 1),
   mkStore (tbl_buildings s ++ [(i, n, a, f, real_column q, t, now, 1)])
           (tbl_rooms s) (tbl_assets s) i (seq_rooms s) (seq_assets s)).
Proof.
  intros F E.
  unfold add_building, with_connect, bind, insert_building, binding, ret.
  cbn [forallb]. rewrite F, E. reflexivity.
Qed.

Lemma add_building_taken (s : store) (n a : string) (f : Z) (q : float)
    (t now : string) :
  int64 f = true ->
  existsb (fun r => building_row_name r =? n) (tbl_buildings s) = true ->
  add_building n a f q t now s =
  (Raise (IntegrityError "UNIQUE constraint failed: buildings.name"), s).
Proof.
  intros F E. unfold add_building, with_connect, bind, insert_building, binding.
  cbn [forallb]. rewrite F, E. reflexivity.
Qed.

Lemma add_building_overflow (s : store) (n a : string) (f : Z) (q : float)
    (t now : string) :
  int64 f = false ->
  add_building n a f q t now s =
  (Raise (OverflowError "Python int too large to convert to SQLite INTEGER"), s).
Proof.
  intros F. unfold add_building, with_connect, bind, insert_building, binding.
  cbn [forallb]. rewrite F. reflexivity.
Qed.

Lemma add_room_missing (s : store) (bn rn : string) (f c : Z) (t now : string) :
  filter (fun r => building_row_name r =? bn) (tbl_buildings s) = [] ->
  add_room bn rn f c t now s =
  (Raise (ValueError ("Building '" ++ bn ++ "' not found")%string), s).
Proof.
  intros E. unfold add_room, with_connect, bind, select_building_id, raise.
  rewrite E. reflexivity.
Qed.

Lemma add_room_found (s : store) (bn rn : string) (f c : Z) (t now : string)
    (r : building_row) (rest : list building_row) :
  int64 f = true -> int64 c = true ->
  filter (fun r => building_row_name r =? bn) (tbl_buildings s) = r :: rest ->
  let i := next_rowid (seq_rooms s) (map room_rowid (tbl_rooms s)) in
  let b := building_rowid r in
  add_room bn rn f c t now s =
  (Return (Room.mk i b rn f c t "available" now),
   mkStore (tbl_buildings s)
           (tbl_rooms s ++ [(i, b, rn, f, c, t, "available", now)])
           (tbl_assets s) (seq_buildings s) i (seq_assets s)).
Proof.
  intros F C E. unfold add_room, with_connect, bind, select_building_id,
    insert_room, binding, ret.
  cbn [forallb]. rewrite E, F, C. reflexivity.
Qed.

Lemma add_room_overflow (s : store) (bn rn : string) (f c : Z) (t now : string)
    (r : building_row) (rest : list building_row) :
  int64 f && int64 c = false ->
  filter (fun r => building_row_name r =? bn) (tbl_buildings s) = r :: rest ->
  add_room bn rn f c t now s =
  (Raise (OverflowError "Python int too large to convert to SQLite INTEGER"), s).
Proof.
  intros F E. unfold add_room, with_connect, bind, select_building_id,
    insert_room, binding.
  cbn [forallb]. rewrite E, andb_true_r, F. reflexivity.
Qed.

Lemma add_asset_eq (s : store) (q : Z) (n t sn pd c nt now : string) :
  int64 q = true ->
  let i := next_rowid (seq_assets s) (map asset_rowid (tbl_assets s)) in
  add_asset q n t sn pd c nt now s =
  (Return (Asset.mk i q n t sn pd c now nt),
   mkStore (tbl_buildings s) (tbl_rooms s)
           (tbl_assets s ++ [(i, q, n, t, sn, pd, c, now, nt)])
           (seq_buildings s) (seq_rooms s) i).
Proof.
  intros Q. unfold add_asset, with_connect, bind, insert_asset, binding, ret.
  cbn [forallb]. rewrite Q. reflexivity.
Qed.

Lemma add_asset_overflow (s : store) (q : Z) (n t sn pd c nt now : string) :
  int64 q = false ->
  add_asset q n t sn pd c nt now s =
  (Raise (OverflowError "Python int too large to convert to SQLite INTEGER"), s).
Proof.
  intros Q. unfold add_asset, with_connect, bind, insert_asset, binding.
  cbn [forallb]. rewrite Q. reflexivity.
Qed.

(** Each mutating method either raises and leaves the store, or returns a
    record and leaves the store with one row more. *)
Lemma add_building_cases (s : store) (n a : string) (f : Z) (q : float)
    (t now : string) :
  (exists e, add_building n a f q t now s = (Raise e, s))
  \/ (let i := next_rowid (seq_buildings s)
                          (map building_rowid (tbl_buildings s)) in
      int64 f = true
      /\ existsb (fun r => building_row_name r =? n) (tbl_buildings s) = false
      /\ add_building n a f q t now s =
         (Return (Building.mk i n a f (Some q) t now 1),
          mkStore (tbl_buildings s ++ [(i, n, a, f, real_column q, t, now, 1)])
                  (tbl_rooms s) (tbl_assets s) i (seq_rooms s) (seq_assets s))).
Proof.
  destruct (int64 f) eqn:F.
  - destruct (existsb (fun r => building_row_name r =? n) (tbl_buildings s)) eqn:E.
    + left. eexists. now apply add_building_taken.
    + right. repeat split. now apply add_building_fresh.
  - left. eexists. now apply add_building_overflow.
Qed.

Lemma add_room_cases (s : store) (bn rn : string) (f c : Z) (t now : string) :
  (exists e, add_room bn rn f c t now s = (Raise e, s))
  \/ (exists r rest,
        let i := next_rowid (seq_rooms s) (map room_rowid (tbl_rooms s)) in
        let b := building_rowid r in
        int64 f = true /\ int64 c = true
        /\ filter (fun r => building_row_name r =? bn) (tbl_buildings s)
           = r :: rest
        /\ add_room bn rn f c t now s =
           (Return (Room.mk i b rn f c t "available" now),
            mkStore (tbl_buildings s)
                    (tbl_rooms s ++ [(i, b, rn, f, c, t, "available", now)])
                    (tbl_assets s) (seq_buildings s) i (seq_assets s))).
Proof.
  destruct (filter (fun r => building_row_name r =? bn) (tbl_buildings s))
    as [|r rest] eqn:E.
  - left. eexists. now apply add_room_missing.
  - destruct (int64 f) eqn:F; [destruct (int64 c) eqn:C|].
    + right. exists r, rest. repeat split; try assumption.
      apply (add_room_found _ _ _ _ _ _ _ r rest F C E).
    + left. eexists. apply (add_room_overflow _ _ _ _ _ _ _ r rest); [|exact E].
      now rewrite F, C.
    + left. eexists. apply (add_room_overflow _ _ _ _ _ _ _ r rest); [|exact E].
      now rewrite F.
Qed.

Lemma add_asset_cases (s : store) (q : Z) (n t sn pd c nt now : string) :
  (exists e, add_asset q n t sn pd c nt now s = (Raise e, s))
  \/ (let i := next_rowid (seq_assets s) (map asset_rowid (tbl_assets s)) in
      int64 q = true
      /\ add_asset q n t sn pd c nt now s =
         (Return (Asset.mk i q n t sn pd c now nt),
          mkStore (tbl_buildings s) (tbl_rooms s)
                  (tbl_assets s ++ [(i, q, n, t, sn, pd, c, now, nt)])
                  (seq_buildings s) (seq_rooms s) i)).
Proof.
  destruct (int64 q) eqn:Q.
  - right. split; [reflexivity|]. now apply add_asset_eq.
  - left. eexists. now apply add_asset_overflow.
Qed.

(** ** The schema's guarantees are kept *)

Lemma wf_parts (s : store) :
  wf s = true <->
  increasing (map building_rowid (tbl_buildings s)) = true /\
  increasing (map room_rowid (tbl_rooms s)) = true /\
  increasing (map asset_rowid (tbl_assets s)) = true /\
  NoDup (map building_row_name (tbl_buildings s)).
Proof.
  unfold wf. rewrite !andb_true_iff, distinct_NoDup. tauto.
Qed.

Lemma wf_empty : wf empty_store = true.
Proof.
  reflexivity.
Qed.

Lemma wf_add_building (s : store) (n a : string) (f : Z) (q : float)
    (t now : string) :
  wf s = true -> wf (snd (add_building n a f q t now s)) = true.
Proof.
  intros H.
  destruct (add_building_cases s n a f q t now) as [(e & ->)|(_ & E & ->)];
    [exact H|]. cbn [snd].
  apply wf_parts in H as (Hb & Hr & Ha & Hn).
  apply wf_parts. cbn [tbl_buildings tbl_rooms tbl_assets].
  rewrite !map_app. cbn [map building_rowid building_row_name].
  repeat split; try assumption.
  - apply increasing_snoc; [exact Hb|]. intros y. apply next_rowid_fresh.
  - apply NoDup_snoc; [exact Hn|]. intros Hin.
    apply name_taken_iff in Hin. congruence.
Qed.

Lemma wf_add_room (s : store) (bn rn : string) (f c : Z) (t now : string) :
  wf s = true -> wf (snd (add_room bn rn f c t now s)) = true.
Proof.
  intros H.
  destruct (add_room_cases s bn rn f c t now)
    as [(e & ->)|(r & rest & _ & _ & _ & ->)]; [exact H|]. cbn [snd].
  apply wf_parts in H as (Hb & Hr & Ha & Hn).
  apply wf_parts. cbn [tbl_buildings tbl_rooms tbl_assets].
  rewrite !map_app. cbn [map room_rowid].
  repeat split; try assumption.
  apply increasing_snoc; [exact Hr|]. intros y. apply next_rowid_fresh.
Qed.

Lemma wf_add_asset (s : store) (q : Z) (n t sn pd c nt now : string) :
  wf s = true -> wf (snd (add_asset q n t sn pd c nt now s)) = true.
Proof.
  intros H.
  destruct (add_asset_cases s q n t sn pd c nt now) as [(e & ->)|(_ & ->)];
    [exact H|]. cbn [snd].
  apply wf_parts in H as (Hb & Hr & Ha & Hn).
  apply wf_parts. cbn [tbl_buildings tbl_rooms tbl_assets].
  rewrite !map_app. cbn [map asset_rowid].
  repeat split; try assumption.
  apply increasing_snoc; [exact Ha|]. intros y. apply next_rowid_fresh.
Qed.

Lemma snd_lift {A B} (f : A -> B) (r : outcome A * store) :
  snd (lift f r) = snd r.
Proof.
  destruct r as [[a|e] s]; reflexivity.
Qed.

Lemma wf_step (now : string) (c : command) (s : store) :
  wf s = true -> wf (snd (step now c s)) = true.
Proof.
  intros H. destruct c; cbn [step]; rewrite snd_lift.
  - now apply wf_add_building.
  - now apply wf_add_room.
  - now apply wf_add_asset.
Qed.

Lemma run_cons (now : string) (c : command) (cs : list (string * command))
    (s : store) :
  run ((now, c) :: cs) s =
  (fst (step now c s) :: fst (run cs (snd (step now c s))),
   snd (run cs (snd (step now c s)))).
Proof.
  simpl. destruct (step now c s) as [o s1]. simpl.
  destruct (run cs s1) as [os s2]. reflexivity.
Qed.

Lemma wf_run (cs : list (string * command)) (s : store) :
  wf s = true -> wf (snd (run cs s)) = true.
Proof.
  revert s. induction cs as [|[now c] cs IH]; intros s H; [exact H|].
  rewrite run_cons. cbn [snd]. apply IH. now apply wf_step.
Qed.

(** ** Sessions only append *)

(** A call adds to the tables what it created, a building as the table
    holds it. *)
Lemma step_tables (now : string) (c : command) (s : store) :
  all_buildings (snd (step now c s)) =
    all_buildings s ++ map as_stored (created_buildings [fst (step now c s)]) /\
  all_rooms (snd (step now c s)) =
    all_rooms s ++ created_rooms [fst (step now c s)] /\
  all_assets (snd (step now c s)) =
    all_assets s ++ created_assets [fst (step now c s)].
Proof.
  unfold all_buildings, all_rooms, all_assets.
  destruct c as [n a f q t | bn rn f c t | q n t sn pd c nt]; cbn [step].
  - destruct (add_building_cases s n a f q t now) as [(e & ->)|(_ & _ & ->)];
      simpl; now rewrite ?map_app, !app_nil_r.
  - destruct (add_room_cases s bn rn f c t now)
      as [(e & ->)|(r & rest & _ & _ & _ & ->)];
      simpl; now rewrite ?map_app, !app_nil_r.
  - destruct (add_asset_cases s q n t sn pd c nt now) as [(e & ->)|(_ & ->)];
      simpl; now rewrite ?map_app, !app_nil_r.
Qed.

Lemma run_tables (cs : list (string * command)) (s : store) :
  all_buildings (snd (run cs s)) =
    all_buildings s ++ map as_stored (created_buildings (fst (run cs s))) /\
  all_rooms (snd (run cs s)) = all_rooms s ++ created_rooms (fst (run cs s)) /\
  all_assets (snd (run cs s)) = all_assets s ++ created_assets (fst (run cs s)).
Proof.
  revert s. induction cs as [|[now c] cs IH]; intros s.
  - simpl. now rewrite !app_nil_r.
  - rewrite run_cons. cbn [fst snd].
    destruct (IH (snd (step now c s))) as (Hb & Hr & Ha).
    destruct (step_tables now c s) as (Hb1 & Hr1 & Ha1).
    rewrite Hb, Hr, Ha, Hb1, Hr1, Ha1.
    unfold created_buildings, created_rooms, created_assets.
    cbn [flat_map]. rewrite !app_nil_r, map_app, <- !app_assoc. auto.
Qed.

(** What a session creates: active buildings with a positive identifier,
    available rooms. *)
Lemma step_created (now : string) (c : command) (s : store) :
  Forall (fun b => Building.active b = 1 /\ 0 < Building.id b)
         (created_buildings [fst (step now c s)]) /\
  Forall (fun r => Room.status r = "available")
         (created_rooms [fst (step now c s)]).
Proof.
  destruct c as [n a f q t | bn rn f c t | q n t sn pd c nt]; cbn [step].
  - destruct (add_building_cases s n a f q t now) as [(e & ->)|(_ & _ & ->)];
      simpl; split; constructor.
    + split; [reflexivity | apply next_rowid_pos].
    + constructor.
  - destruct (add_room_cases s bn rn f c t now)
      as [(e & ->)|(r & rest & _ & _ & _ & ->)];
      simpl; split; constructor; [reflexivity | constructor].
  - destruct (add_asset_cases s q n t sn pd c nt now) as [(e & ->)|(_ & ->)];
      simpl; split; constructor.
Qed.

Lemma run_created (cs : list (string * command)) (s : store) :
  Forall (fun b => Building.active b = 1 /\ 0 < Building.id b)
         (created_buildings (fst (run cs s))) /\
  Forall (fun r => Room.status r = "available")
         (created_rooms (fst (run cs s))).
Proof.
  revert s. induction cs as [|[now c] cs IH]; intros s.
  - simpl. split; constructor.
  - rewrite run_cons. cbn [fst].
    destruct (IH (snd (step now c s))) as (Hb & Hr).
    destruct (step_created now c s) as (Hb1 & Hr1).
    unfold created_buildings, created_rooms in *.
    cbn [flat_map] in *. rewrite app_nil_r in Hb1, Hr1.
    split; apply Forall_app; auto.
Qed.

(** ** Rows and records *)

Lemma Building_name_of_row (r : building_row) :
  Building.name (Building_of_row r) = building_row_name r.
Proof.
  now destruct r as [[[[[[[i n] a] f] q] t] c] act].
Qed.

Lemma Building_id_of_row (r : building_row) :
  Building.id (Building_of_row r) = building_rowid r.
Proof.
  now destruct r as [[[[[[[i n] a] f] q] t] c] act].
Qed.

Lemma Building_active_of_row (r : building_row) :
  Building.active (Building_of_row r) = building_row_active r.
Proof.
  now destruct r as [[[[[[[i n] a] f] q] t] c] act].
Qed.

Lemma Room_building_id_of_row (r : room_row) :
  Room.building_id (Room_of_row r) = room_row_building_id r.
Proof.
  now destruct r as [[[[[[[i b] n] f] c] t] st] ca].
Qed.

Lemma Room_status_of_row (r : room_row) :
  Room.status (Room_of_row r) = room_row_status r.
Proof.
  now destruct r as [[[[[[[i b] n] f] c] t] st] ca].
Qed.

Lemma Asset_room_id_of_row (r : asset_row) :
  Asset.room_id (Asset_of_row r) = asset_row_room_id r.
Proof.
  now destruct r as [[[[[[[[i q] n] t] sn] pd] c] li] nt].
Qed.

Lemma building_names (s : store) :
  map Building.name (all_buildings s) = map building_row_name (tbl_buildings s).
Proof.
  unfold all_buildings. rewrite map_map. apply map_ext.
  exact Building_name_of_row.
Qed.

Lemma building_ids (s : store) :
  map Building.id (all_buildings s) = map building_rowid (tbl_buildings s).
Proof.
  unfold all_buildings. rewrite map_map. apply map_ext.
  exact Building_id_of_row.
Qed.

(** A name no building bears, on records and on rows. *)
Lemma name_unknown_rows (s : store) (n : string) :
  (forall b, In b (all_buildings s) -> Building.name b <> n) ->
  forall r, In r (tbl_buildings s) -> building_row_name r <> n.
Proof.
  intros H r Hr. rewrite <- Building_name_of_row. apply H.
  unfold all_buildings. now apply in_map.
Qed.

(** A name some building bears, on records and on rows. *)
Lemma name_known_row (s : store) (b : Building.t) :
  In b (all_buildings s) ->
  exists r, In r (tbl_buildings s) /\ Building_of_row r = b /\
            building_row_name r = Building.name b.
Proof.
  unfold all_buildings. rewrite in_map_iff. intros (r & E & Hr).
  exists r. repeat split; try assumption.
  now rewrite <- Building_name_of_row, E.
Qed.

(** ** Registering rooms and buildings: the failures *)

(** C1. In every store, [add_room] under a building name that no building
    bears raises the not-found error with the message
    "Building '<name>' not found", and leaves the store as it was: the rooms
    table gains no row. *)
Theorem add_room_unknown_building (s : store) (building_name room_name : string)
    (floor capacity : Z) (room_type now : string) :
  (forall b, In b (all_buildings s) -> Building.name b <> building_name) ->
  add_room building_name room_name floor capacity room_type now s =
    (Raise (ValueError ("Building '" ++ building_name ++ "' not found")%string), s)
  /\ all_rooms (snd (add_room building_name room_name floor capacity
                              room_type now s)) = all_rooms s.
Proof.
  intros H.
  assert (E : add_room building_name room_name floor capacity room_type now s =
              (Raise (ValueError ("Building '" ++ building_name
                                    ++ "' not found")%string), s)).
  { apply add_room_missing, lookup_absent, name_unknown_rows, H. }
  split; [exact E | now rewrite E].
Qed.

Lemma add_room_unknown_building_witness :
  (forall b, In b (all_buildings hq_store) -> Building.name b <> "Annex") /\
  add_room "Annex" "Lab" 1 10 "office" "2024-05-04T12:00:00" hq_store =
    (Raise (ValueError "Building 'Annex' not found"), hq_store).
Proof.
  assert (H : forall b, In b (all_buildings hq_store) ->
                        Building.name b <> "Annex").
  { intros b [<-|[]]. discriminate. }
  split; [exact H|].
  apply (add_room_unknown_building hq_store "Annex" "Lab" 1 10 "office"
           "2024-05-04T12:00:00" H).
Defined.

(** C2, as stated, fails: [hq_store] holds a building named "HQ", yet
    [add_building] under that name with a number of floors beyond 64 bits
    is refused by the driver before the insert runs, with [OverflowError]
    and not with the constraint violation. *)
Lemma add_building_duplicate_counterexample :
  In (Building.mk 1 "HQ" "" 5 (Some 0%float) "office" "2024-05-01T09:00:00" 1)
     (all_buildings hq_store)
  /\ add_building "HQ" "" (2 ^ 63) 0%float "office" "2024-05-04T12:00:00"
                  hq_store =
       (Raise (OverflowError
                 "Python int too large to convert to SQLite INTEGER"),
        hq_store)
  /\ ~ (exists msg,
          add_building "HQ" "" (2 ^ 63) 0%float "office" "2024-05-04T12:00:00"
                       hq_store = (Raise (IntegrityError msg), hq_store)).
Proof.
  split; [left; reflexivity|]. split; [reflexivity|].
  intros (msg & H). discriminate H.
Qed.

(** C2, amended. In every store that already holds a building named [n],
    whatever its active flag, [add_building n] raises and leaves the store
    as it was: the constraint violation when the number of floors is within
    the signed 64-bit range, the driver's [OverflowError] when it is not.
    Exactly one building bears the name afterwards; and whatever calls
    follow, no two buildings of the store share a name. *)
Theorem add_building_duplicate (s : store) (b : Building.t)
    (address : string) (floors : Z) (sqft : float) (building_type now : string) :
  wf s = true ->
  In b (all_buildings s) ->
  let r := add_building (Building.name b) address floors sqft building_type now s in
  (exists e,
      r = (Raise e, s)
      /\ (int64 floors = true -> exists msg, e = IntegrityError msg)
      /\ (int64 floors = false -> exists msg, e = OverflowError msg))
  /\ List.length (filter (fun x => Building.name x =? Building.name b)
                         (all_buildings (snd r))) = 1%nat
  /\ forall cs, NoDup (map Building.name (all_buildings (snd (run cs s)))).
Proof.
  intros Hwf Hin r.
  destruct (name_known_row s b Hin) as (row & Hrow & Hrec & Hname).
  assert (Hnd : NoDup (map building_row_name (tbl_buildings s))).
  { now apply wf_parts in Hwf. }
  assert (T : existsb (fun r => building_row_name r =? Building.name b)
                      (tbl_buildings s) = true).
  { apply name_taken_iff. rewrite <- Hname. now apply in_map. }
  assert (E : exists e,
             r = (Raise e, s)
             /\ (int64 floors = true -> exists msg, e = IntegrityError msg)
             /\ (int64 floors = false -> exists msg, e = OverflowError msg)).
  { subst r. destruct (int64 floors) eqn:F.
    - rewrite add_building_taken by assumption. eexists.
      split; [reflexivity|]. split; [now eexists | discriminate].
    - rewrite add_building_overflow by assumption. eexists.
      split; [reflexivity|]. split; [discriminate | now eexists]. }
  split; [exact E|]. split.
  - destruct E as (e & -> & _). cbn [snd]. unfold all_buildings.
    rewrite filter_map_swap.
    rewrite (filter_ext _ (fun r0 => building_row_name r0 =? Building.name b)).
    + rewrite (lookup_unique _ _ row Hnd Hrow Hname). reflexivity.
    + intros r0. now rewrite Building_name_of_row.
  - intros cs. rewrite building_names.
    pose proof (wf_run cs s Hwf) as Hwf'. now apply wf_parts in Hwf'.
Qed.

Lemma add_building_duplicate_witness :
  let b := Building.mk 2 "Annex" "" 1 (Some 0%float) "storage"
                       "2024-05-02T10:00:00" 0 in
  wf annex_store = true /\ In b (all_buildings annex_store) /\
  (exists msg,
      add_building "Annex" "2 Side St" 3 1200%float "office"
                   "2024-05-04T12:00:00" annex_store =
      (Raise (IntegrityError msg), annex_store)).
Proof.
  intros b.
  assert (Hwf : wf annex_store = true) by reflexivity.
  assert (Hin : In b (all_buildings annex_store)) by (right; left; reflexivity).
  split; [exact Hwf|]. split; [exact Hin|].
  destruct (add_building_duplicate annex_store b "2 Side St" 3 1200%float
              "office" "2024-05-04T12:00:00" Hwf Hin)
    as ((e & H & HI & _) & _).
  destruct (HI eq_refl) as (msg & ->). exists msg. exact H.
Defined.

(** ** Summary counts *)

Lemma filter_all {A} (p : A -> bool) (l : list A) :
  Forall (fun x => p x = true) l -> filter p l = l.
Proof.
  induction 1 as [|x l Hx _ IH]; simpl; [reflexivity|].
  now rewrite Hx, IH.
Qed.

Lemma count_rows {A B} (f : A -> B) (p : B -> bool) (l : list A) :
  List.length (filter (fun r => p (f r)) l) = List.length (filter p (map f l)).
Proof.
  now rewrite filter_map_swap, length_map.
Qed.

(** [status] on a store, in terms of the records it holds. *)
Lemma status_eq (db_path : string) (s : store) :
  status db_path s =
  (Return
     (Summary.mk
        (Z.of_nat (List.length (filter (fun b => (Building.active b =? 1)%Z)
                                       (all_buildings s))))
        (Z.of_nat (List.length (all_rooms s)))
        (Z.of_nat (List.length (filter (fun r => Room.status r =? "available")
                                       (all_rooms s))))
        (Z.of_nat (List.length (all_assets s)))
        db_path), s).
Proof.
  unfold status, with_connect, bind, count_buildings, count_rooms,
    count_assets, ret, all_buildings, all_rooms, all_assets.
  rewrite <- (count_rows Building_of_row (fun b => (Building.active b =? 1)%Z)).
  rewrite <- (count_rows Room_of_row (fun r => Room.status r =? "available")).
  rewrite (filter_ext where_active
             (fun r => (Building.active (Building_of_row r) =? 1)%Z)).
  2: { intros r. unfold where_active. now rewrite Building_active_of_row. }
  rewrite (filter_ext where_available
             (fun r => Room.status (Room_of_row r) =? "available")).
  2: { intros r. unfold where_available. now rewrite Room_status_of_row. }
  unfold all. now rewrite !length_map, !filter_true.
Qed.

(** [status] after a session on a fresh database: one active building per
    building created, one available room per room created. *)
Lemma status_after_session (db_path : string) (cs : list (string * command)) :
  let os := fst (run cs empty_store) in
  let s := snd (run cs empty_store) in
  status db_path s =
  (Return
     (Summary.mk
        (Z.of_nat (List.length (created_buildings os)))
        (Z.of_nat (List.length (created_rooms os)))
        (Z.of_nat (List.length (created_rooms os)))
        (Z.of_nat (List.length (created_assets os)))
        db_path), s).
Proof.
  intros os s. rewrite status_eq.
  destruct (run_tables cs empty_store) as (Hb & Hr & Ha).
  destruct (run_created cs empty_store) as (Fb & Fr).
  fold os in Hb, Hr, Ha, Fb, Fr. fold s in Hb, Hr, Ha.
  rewrite Hb, Hr, Ha. cbn [all_buildings all_rooms all_assets empty_store
    tbl_buildings tbl_rooms tbl_assets map app].
  rewrite !filter_all; [now rewrite length_map | |].
  - eapply Forall_impl; [|exact Fr]. intros r E. cbn beta in E.
    rewrite E. reflexivity.
  - apply Forall_forall. intros x Hx. apply in_map_iff in Hx as (b & <- & Hb').
    rewrite Forall_forall in Fb. destruct (Fb b Hb') as [E _].
    cbn [as_stored Building.active]. now rewrite E.
Qed.

(** C3. [status] reports the number of buildings whose active flag is 1,
    of all rooms, of rooms whose status is exactly "available" and of all
    assets; on a fresh database, after a session that registered two
    buildings, three rooms and five assets, these are 2, 3, 3 and 5. *)
Theorem status_counts (db_path : string) (s : store)
    (cs : list (string * command)) :
  List.length (created_buildings (fst (run cs empty_store))) = 2%nat ->
  List.length (created_rooms (fst (run cs empty_store))) = 3%nat ->
  List.length (created_assets (fst (run cs empty_store))) = 5%nat ->
  status db_path s =
    (Return
       (Summary.mk
          (Z.of_nat (List.length (filter (fun b => (Building.active b =? 1)%Z)
                                         (all_buildings s))))
          (Z.of_nat (List.length (all_rooms s)))
          (Z.of_nat (List.length (filter (fun r => Room.status r =? "available")
                                         (all_rooms s))))
          (Z.of_nat (List.length (all_assets s)))
          db_path), s)
  /\ status db_path (snd (run cs empty_store)) =
       (Return (Summary.mk 2 3 3 5 db_path), snd (run cs empty_store)).
Proof.
  intros Hb Hr Ha. split; [apply status_eq|].
  pose proof (status_after_session db_path cs) as H. cbv zeta in H.
  rewrite Hb, Hr, Ha in H. exact H.
Qed.

Lemma status_counts_witness :
  status "facilities-management.db" annex_store =
    (Return (Summary.mk 1 2 1 2 "facilities-management.db"), annex_store)
  /\ status "facilities-management.db" (snd (run campus_session empty_store)) =
       (Return (Summary.mk 2 3 3 5 "facilities-management.db"),
        snd (run campus_session empty_store)).
Proof.
  exact (status_counts "facilities-management.db" annex_store campus_session
           eq_refl eq_refl eq_refl).
Defined.

(** ** The full dump *)

Lemma export_data_eq (now : string) (s : store) :
  export_data now s =
  (Return (Dump.mk (map asdict_Building (all_buildings s))
                   (map asdict_Room (all_rooms s))
                   (map asdict_Asset (all_assets s))
                   now), s).
Proof.
  unfold export_data, with_connect, bind, select_buildings, select_rooms,
    select_assets, ret, all. now rewrite !filter_true.
Qed.

(** A field mapping determines the record it was made from. *)
Lemma asdict_Building_inj (b b' : Building.t) :
  asdict_Building b = asdict_Building b' -> b = b'.
Proof.
  destruct b as [i n a f [x|] t c act], b' as [i' n' a' f' [x'|] t' c' act'];
    unfold asdict_Building; cbn; intros H; inversion H; reflexivity.
Qed.

Lemma asdict_Room_inj (r r' : Room.t) :
  asdict_Room r = asdict_Room r' -> r = r'.
Proof.
  destruct r, r'. unfold asdict_Room. cbn. intros H.
  inversion H. reflexivity.
Qed.

Lemma asdict_Asset_inj (a a' : Asset.t) :
  asdict_Asset a = asdict_Asset a' -> a = a'.
Proof.
  destruct a, a'. unfold asdict_Asset. cbn. intros H.
  inversion H. reflexivity.
Qed.

(** C4, as stated, fails: on a new database, a building registered with
    NaN as area is returned with that area, but the table holds [NULL] for
    it, so the export has [None] there and does not contain the field
    mapping of the record created. *)
Lemma export_data_nan_counterexample :
  created_buildings
    (fst (run [("2024-07-01T08:00:00", AddBuilding "Lab" "" 1 nan "lab")]
              empty_store))
    = [ Building.mk 1 "Lab" "" 1 (Some nan) "lab" "2024-07-01T08:00:00" 1 ]
  /\ fst (export_data "2024-07-01T09:00:00"
            (snd (run [("2024-07-01T08:00:00",
                        AddBuilding "Lab" "" 1 nan "lab")] empty_store)))
     = Return
         (Dump.mk
            [ [ ("id", VInt 1); ("name", VStr "Lab"); ("address", VStr "");
                ("floors", VInt 1); ("total_sqft", VNone);
                ("building_type", VStr "lab");
                ("created_at", VStr "2024-07-01T08:00:00");
                ("active", VInt 1) ] ]
            [] [] "2024-07-01T09:00:00")
  /\ ~ In (asdict_Building
             (Building.mk 1 "Lab" "" 1 (Some nan) "lab"
                          "2024-07-01T08:00:00" 1))
          [ [ ("id", VInt 1); ("name", VStr "Lab"); ("address", VStr "");
              ("floors", VInt 1); ("total_sqft", VNone);
              ("building_type", VStr "lab");
              ("created_at", VStr "2024-07-01T08:00:00");
              ("active", VInt 1) ] ].
Proof.
  split; [reflexivity|]. split; [reflexivity|].
  intros [H|[]]. discriminate H.
Qed.

(** C4, amended. After any session on any store, [export_data] returns the
    field mapping of every row of the three tables: of every room and asset
    the session created, with the values the creating call returned; of
    every building it created, with those values but for the area, which is
    exported as the table holds it ([None] for NaN, zero for negative zero,
    and the value given otherwise); and of every row the store held before,
    buildings with a cleared active flag included. A field mapping stands
    for one record only. A second export on the store the first one leaves
    returns the same buildings, rooms and assets; only the export timestamp
    is that of the call. *)
Theorem export_data_complete (s : store) (cs : list (string * command))
    (t1 t2 : string) :
  let os := fst (run cs s) in
  let s' := snd (run cs s) in
  exists d1 d2,
    export_data t1 s' = (Return d1, s')
    /\ export_data t2 (snd (export_data t1 s')) = (Return d2, s')
    /\ (Dump.buildings d1 = map asdict_Building (all_buildings s')
        /\ Dump.rooms d1 = map asdict_Room (all_rooms s')
        /\ Dump.assets d1 = map asdict_Asset (all_assets s'))
    /\ ((forall b, In b (created_buildings os) ->
           In (asdict_Building (as_stored b)) (Dump.buildings d1)
           /\ (forall x, Building.total_sqft b = Some x ->
                         real_column x = Some x ->
                         In (asdict_Building b) (Dump.buildings d1)))
        /\ (forall r, In r (created_rooms os) ->
                      In (asdict_Room r) (Dump.rooms d1))
        /\ (forall a, In a (created_assets os) ->
                      In (asdict_Asset a) (Dump.assets d1)))
    /\ ((forall b, In b (all_buildings s) ->
                   In (asdict_Building b) (Dump.buildings d1))
        /\ (forall r, In r (all_rooms s) -> In (asdict_Room r) (Dump.rooms d1))
        /\ (forall a, In a (all_assets s) ->
                      In (asdict_Asset a) (Dump.assets d1)))
    /\ ((forall b b', asdict_Building b = asdict_Building b' -> b = b')
        /\ (forall r r', asdict_Room r = asdict_Room r' -> r = r')
        /\ (forall a a', asdict_Asset a = asdict_Asset a' -> a = a'))
    /\ (Dump.buildings d2 = Dump.buildings d1
        /\ Dump.rooms d2 = Dump.rooms d1
        /\ Dump.assets d2 = Dump.assets d1)
    /\ Dump.exported_at d1 = t1 /\ Dump.exported_at d2 = t2.
Proof.
  intros os s'.
  destruct (run_tables cs s) as (Hb & Hr & Ha).
  fold os in Hb, Hr, Ha. fold s' in Hb, Hr, Ha.
  eexists. eexists.
  split; [apply export_data_eq|].
  split; [rewrite (export_data_eq t1 s'); cbn [snd]; apply export_data_eq|].
  cbn [Dump.buildings Dump.rooms Dump.assets Dump.exported_at].
  split; [auto|].
  rewrite Hb, Hr, Ha.
  split.
  { split; [|split; intros x Hx; apply in_map; apply in_or_app; now right].
    intros b Hin.
    assert (K : In (asdict_Building (as_stored b))
                   (map asdict_Building
                        (all_buildings s
                         ++ map as_stored (created_buildings os)))).
    { apply in_map, in_or_app. right. now apply in_map. }
    split; [exact K|]. intros x Ex Rx.
    replace b with (as_stored b); [exact K|].
    destruct b as [i n a f q t c act]. cbn in Ex. subst q.
    unfold as_stored. cbn. now rewrite Rx. }
  split.
  { repeat split; intros x Hx; apply in_map; apply in_or_app; now left. }
  split.
  { repeat split.
    - exact asdict_Building_inj.
    - exact asdict_Room_inj.
    - exact asdict_Asset_inj. }
  auto.
Qed.

Lemma export_data_complete_witness :
  exists d,
    export_data "2024-06-02T08:00:00" (snd (run campus_session empty_store))
      = (Return d, snd (run campus_session empty_store))
    /\ In (asdict_Building
             (Building.mk 1 "North" "1 North Rd" 3 (Some 5400.5%float)
                          "office" "2024-06-01T08:00:00" 1))
          (Dump.buildings d)
    /\ In (asdict_Room
             (Room.mk 3 2 "Dock" 1 4 "storage" "available"
                      "2024-06-01T08:06:00"))
          (Dump.rooms d)
    /\ In (asdict_Asset
             (Asset.mk 5 0 "Crate" "equipment" "" "" "good"
                       "2024-06-01T08:11:00" ""))
          (Dump.assets d).
Proof.
  destruct (export_data_complete empty_store campus_session
              "2024-06-02T08:00:00" "2024-06-02T09:00:00")
    as (d1 & d2 & H1 & _ & _ & (Hb & Hr & Ha) & _).
  exists d1. split; [exact H1|]. split; [|split].
  - refine (proj2 (Hb (Building.mk 1 "North" "1 North Rd" 3 (Some 5400.5%float)
                                   "office" "2024-06-01T08:00:00" 1) _)
                  5400.5%float eq_refl _).
    + vm_compute. left. reflexivity.
    + vm_compute. reflexivity.
  - apply Hr. vm_compute. right. right. left. reflexivity.
  - apply Ha. vm_compute. right. right. right. right. left. reflexivity.
Defined.

(** The switched-off building of [annex_store] is exported and not listed. *)
Example export_keeps_inactive :
  let annex := Building.mk 2 "Annex" "" 1 (Some 0%float) "storage"
                           "2024-05-02T10:00:00" 0 in
  (exists d, export_data "2024-05-04T12:00:00" annex_store = (Return d, annex_store)
             /\ In (asdict_Building annex) (Dump.buildings d))
  /\ exists l, list_buildings annex_store = (Return l, annex_store)
               /\ ~ In annex l.
Proof.
  intros annex. split.
  - eexists. split; [apply export_data_eq|]. right. left. reflexivity.
  - eexists. split; [reflexivity|]. intros [H|[]]. discriminate H.
Qed.

(** ** Listing rooms *)

Lemma list_rooms_none (s : store) :
  list_rooms None s = (Return (all_rooms s), s).
Proof.
  unfold list_rooms, with_connect, bind, select_rooms, ret, all, all_rooms.
  now rewrite filter_true.
Qed.

Lemma list_rooms_empty_name (s : store) :
  list_rooms (Some ""%string) s = (Return (all_rooms s), s).
Proof.
  unfold list_rooms, with_connect, bind, select_rooms, ret, all, all_rooms.
  cbn [truthy_str String.eqb negb]. now rewrite filter_true.
Qed.

Lemma truthy_str_nonempty (n : string) :
  n <> ""%string -> truthy_str (Some n) = true.
Proof.
  intros H. unfold truthy_str. now destruct (String.eqb_spec n "").
Qed.

Lemma list_rooms_missing (s : store) (n : string) :
  n <> ""%string ->
  filter (fun r => building_row_name r =? n) (tbl_buildings s) = [] ->
  list_rooms (Some n) s = (Return [], s).
Proof.
  intros Hn E. unfold list_rooms, with_connect, bind, select_building_id, ret.
  rewrite (truthy_str_nonempty n Hn), E. reflexivity.
Qed.

Lemma list_rooms_found (s : store) (n : string) (r : building_row)
    (rest : list building_row) :
  n <> ""%string ->
  filter (fun r => building_row_name r =? n) (tbl_buildings s) = r :: rest ->
  list_rooms (Some n) s =
  (Return (filter (fun x => (Room.building_id x =? building_rowid r)%Z)
                  (all_rooms s)), s).
Proof.
  intros Hn E.
  unfold list_rooms, with_connect, bind, select_building_id, select_rooms,
    ret, all_rooms.
  rewrite (truthy_str_nonempty n Hn), E, filter_map_swap.
  do 3 f_equal. apply filter_ext. intros x. unfold where_building_id.
  now rewrite Room_building_id_of_row.
Qed.

(** C5, as stated, fails: the empty name matches no building of [hq_store],
    yet listing rooms under it returns the room of the store and not the
    empty sequence. *)
Lemma list_rooms_unmatched_counterexample :
  (forall b, In b (all_buildings hq_store) -> Building.name b <> ""%string)
  /\ list_rooms (Some ""%string) hq_store =
       (Return [Room.mk 1 1 "Room 101" 1 20 "office" "available"
                        "2024-05-01T09:01:00"], hq_store)
  /\ list_rooms (Some ""%string) hq_store <> (Return [], hq_store).
Proof.
  split; [|split].
  - intros b [<-|[]]. discriminate.
  - reflexivity.
  - discriminate.
Qed.

(** C5, amended. For a building name that is not the empty string:
    [list_rooms] returns the empty sequence, and no error, when no building
    bears the name, and exactly the rooms whose building is the one that
    bears it otherwise; with no name given it returns all rooms of the
    store. *)
Theorem list_rooms_by_building (s : store) (n : string) :
  wf s = true ->
  n <> ""%string ->
  ((forall b, In b (all_buildings s) -> Building.name b <> n) ->
   list_rooms (Some n) s = (Return [], s))
  /\ (forall b, In b (all_buildings s) -> Building.name b = n ->
        list_rooms (Some n) s =
        (Return (filter (fun x => (Room.building_id x =? Building.id b)%Z)
                        (all_rooms s)), s))
  /\ list_rooms None s = (Return (all_rooms s), s).
Proof.
  intros Hwf Hn. split; [|split].
  - intros H. apply list_rooms_missing; [exact Hn|].
    apply lookup_absent, name_unknown_rows, H.
  - intros b Hin Hb.
    destruct (name_known_row s b Hin) as (row & Hrow & Hrec & Hname).
    assert (Hnd : NoDup (map building_row_name (tbl_buildings s))).
    { now apply wf_parts in Hwf. }
    rewrite Hb in Hname.
    rewrite (list_rooms_found s n row [] Hn
               (lookup_unique n _ row Hnd Hrow Hname)).
    now rewrite <- Hrec, Building_id_of_row.
  - apply list_rooms_none.
Qed.

Lemma list_rooms_by_building_witness :
  list_rooms (Some "Nowhere"%string) annex_store = (Return [], annex_store)
  /\ list_rooms (Some "Annex"%string) annex_store =
       (Return [Room.mk 2 2 "Vault" 1 2 "storage" "occupied"
                        "2024-05-02T10:05:00"], annex_store)
  /\ list_rooms None annex_store = (Return (all_rooms annex_store), annex_store).
Proof.
  assert (Hwf : wf annex_store = true) by reflexivity.
  assert (N1 : "Nowhere"%string <> ""%string) by discriminate.
  assert (N2 : "Annex"%string <> ""%string) by discriminate.
  destruct (list_rooms_by_building annex_store "Nowhere" Hwf N1) as (H1 & _ & _).
  destruct (list_rooms_by_building annex_store "Annex" Hwf N2) as (_ & H2 & H3).
  split; [|split].
  - apply H1. intros b [<-|[<-|[]]]; discriminate.
  - apply (H2 (Building.mk 2 "Annex" "" 1 (Some 0%float) "storage"
                           "2024-05-02T10:00:00" 0)).
    + right. left. reflexivity.
    + reflexivity.
  - exact H3.
Defined.

(** C10. Called with the empty string as building name, [list_rooms]
    returns all rooms of the store, as it does with no name at all, whereas
    a non-empty name that no building bears yields the empty sequence. *)
Theorem list_rooms_empty_string (s : store) :
  list_rooms (Some ""%string) s = (Return (all_rooms s), s)
  /\ list_rooms (Some ""%string) s = list_rooms None s
  /\ forall n, n <> ""%string ->
       (forall b, In b (all_buildings s) -> Building.name b <> n) ->
       list_rooms (Some n) s = (Return [], s).
Proof.
  split; [|split].
  - apply list_rooms_empty_name.
  - now rewrite list_rooms_empty_name, list_rooms_none.
  - intros n Hn H. apply list_rooms_missing; [exact Hn|].
    apply lookup_absent, name_unknown_rows, H.
Qed.

Lemma list_rooms_empty_string_witness :
  list_rooms (Some ""%string) annex_store =
    (Return [ Room.mk 1 1 "Room 101" 1 20 "office" "available"
                      "2024-05-01T09:01:00";
              Room.mk 2 2 "Vault" 1 2 "storage" "occupied"
                      "2024-05-02T10:05:00" ], annex_store)
  /\ list_rooms (Some ""%string) annex_store = list_rooms None annex_store
  /\ list_rooms (Some "Nowhere"%string) annex_store = (Return [], annex_store).
Proof.
  destruct (list_rooms_empty_string annex_store) as (H1 & H2 & H3).
  split; [exact H1|]. split; [exact H2|].
  apply H3; [discriminate|]. intros b [<-|[<-|[]]]; discriminate.
Defined.

(** ** Listing assets *)

Lemma list_assets_none (s : store) :
  list_assets None s = (Return (all_assets s), s).
Proof.
  unfold list_assets, with_connect, bind, select_assets, ret, all, all_assets.
  now rewrite filter_true.
Qed.

Lemma list_assets_zero (s : store) :
  list_assets (Some 0) s = (Return (all_assets s), s).
Proof.
  unfold list_assets, with_connect, bind, select_assets, ret, all, all_assets.
  cbn [truthy_int Z.eqb negb]. now rewrite filter_true.
Qed.

Lemma list_assets_some (s : store) (q : Z) :
  q <> 0 -> int64 q = true ->
  list_assets (Some q) s =
  (Return (filter (fun a => (Asset.room_id a =? q)%Z) (all_assets s)), s).
Proof.
  intros Hq Q.
  unfold list_assets, with_connect, bind, select_assets_of_room, binding,
    select_assets, ret, all_assets.
  cbn [truthy_int forallb]. destruct (Z.eqb_spec q 0) as [E|_]; [contradiction|].
  cbn [negb]. rewrite Q. cbn [andb]. rewrite filter_map_swap. do 3 f_equal.
  apply filter_ext. intros x. unfold where_room_id.
  now rewrite Asset_room_id_of_row.
Qed.

Lemma list_assets_overflow (s : store) (q : Z) :
  int64 q = false ->
  list_assets (Some q) s =
  (Raise (OverflowError "Python int too large to convert to SQLite INTEGER"), s).
Proof.
  intros Q.
  assert (Hq : (q =? 0)%Z = false).
  { destruct (Z.eqb_spec q 0) as [->|_]; [discriminate Q | reflexivity]. }
  unfold list_assets, with_connect, bind, select_assets_of_room, binding.
  cbn [truthy_int forallb]. rewrite Hq, Q. reflexivity.
Qed.


(** C6, as stated, fails: the room id 2^63 is truthy, yet [list_assets]
    with it returns no list; the driver refuses the parameter with
    [OverflowError]. *)
Lemma list_assets_by_room_counterexample :
  truthy_int (Some (2 ^ 63)) = true
  /\ list_assets (Some (2 ^ 63)) annex_store =
       (Raise (OverflowError
                 "Python int too large to convert to SQLite INTEGER"),
        annex_store).
Proof.
  split; reflexivity.
Qed.

(** C6, amended. In every store, [list_assets] with room id 0 returns what
    [list_assets] with no room id returns, all assets of the store; with a
    room id other than 0 within the signed 64-bit range it returns exactly
    the assets whose [room_id] is that id, and with one beyond that range
    it raises the driver's [OverflowError]. *)
Theorem list_assets_by_room (s : store) (q : Z) :
  q <> 0 ->
  list_assets (Some 0) s = list_assets None s
  /\ list_assets None s = (Return (all_assets s), s)
  /\ (int64 q = true ->
      list_assets (Some q) s =
        (Return (filter (fun a => (Asset.room_id a =? q)%Z) (all_assets s)), s))
  /\ (int64 q = false ->
      exists msg, list_assets (Some q) s = (Raise (OverflowError msg), s)).
Proof.
  intros Hq. split; [|split; [|split]].
  - now rewrite list_assets_zero, list_assets_none.
  - apply list_assets_none.
  - now apply list_assets_some.
  - intros Q. eexists. now apply list_assets_overflow.
Qed.

Lemma list_assets_by_room_witness :
  list_assets (Some 0) annex_store = list_assets None annex_store
  /\ list_assets None annex_store = (Return (all_assets annex_store), annex_store)
  /\ list_assets (Some 7) annex_store =
       (Return [Asset.mk 2 7 "Ladder" "equipment" "" "" "good"
                         "2024-05-03T08:00:00" ""], annex_store).
Proof.
  assert (H : 7 <> 0) by discriminate.
  destruct (list_assets_by_room annex_store 7 H) as (H1 & H2 & H3 & _).
  split; [exact H1|]. split; [exact H2|]. exact (H3 eq_refl).
Defined.

(** ** Listing buildings *)

Lemma list_buildings_eq (s : store) :
  list_buildings s =
  (Return (filter (fun b => (Building.active b =? 1)%Z) (all_buildings s)), s).
Proof.
  unfold list_buildings, with_connect, bind, select_buildings, ret,
    all_buildings.
  rewrite filter_map_swap. do 3 f_equal. apply filter_ext. intros r.
  unfold where_active. now rewrite Building_active_of_row.
Qed.

Lemma sorted_filter {A} (f : A -> Z) (p : A -> bool) (l : list A) :
  StronglySorted Z.lt (map f l) -> StronglySorted Z.lt (map f (filter p l)).
Proof.
  induction l as [|x l IH]; intros H; [constructor|].
  simpl in H. inversion H as [|? ? Hl Hx]; subst. simpl.
  destruct (p x); [|now apply IH]. simpl. constructor; [now apply IH|].
  rewrite Forall_forall in *. intros y Hy. apply Hx.
  rewrite in_map_iff in *. destruct Hy as (z & E & Hz).
  exists z. split; [exact E|]. now apply filter_In in Hz.
Qed.

(** A successful [add_building]: the record, and the store it leaves. *)
Lemma add_building_returns (s s' : store) (n a : string) (f : Z) (q : float)
    (t now : string) (b : Building.t) :
  add_building n a f q t now s = (Return b, s') ->
  b = Building.mk (next_rowid (seq_buildings s)
                              (map building_rowid (tbl_buildings s)))
                  n a f (Some q) t now 1
  /\ all_buildings s' = all_buildings s ++ [as_stored b]
  /\ all_rooms s' = all_rooms s /\ all_assets s' = all_assets s.
Proof.
  intros H.
  destruct (add_building_cases s n a f q t now) as [(e & E)|(_ & _ & E)];
    rewrite E in H; [discriminate H|].
  injection H as <- <-. unfold all_buildings, all_rooms, all_assets.
  cbn [tbl_buildings tbl_rooms tbl_assets]. rewrite map_app. auto.
Qed.

Lemma building_id_fresh (s : store) (x : Building.t) :
  In x (all_buildings s) ->
  Building.id x <
  next_rowid (seq_buildings s) (map building_rowid (tbl_buildings s)).
Proof.
  intros Hx. apply next_rowid_fresh. rewrite <- building_ids.
  now apply in_map.
Qed.

(** C7. In every store, [list_buildings] returns all the buildings whose
    active flag is 1 and no other, each once as the table holds it, in
    increasing order of identifier. That order is the order of insertion: a
    building that [add_building] registers gets an identifier above all
    those of the store and comes last in the listing, as the table holds
    it. *)
Theorem list_buildings_active (s : store) :
  wf s = true ->
  exists l,
    list_buildings s = (Return l, s)
    /\ l = filter (fun b => (Building.active b =? 1)%Z) (all_buildings s)
    /\ (forall b, In b l <-> In b (all_buildings s) /\ Building.active b = 1)
    /\ StronglySorted Z.lt (map Building.id l)
    /\ forall n a f q t now b s',
         add_building n a f q t now s = (Return b, s') ->
         (forall x, In x (all_buildings s) -> Building.id x < Building.id b)
         /\ Building.id (as_stored b) = Building.id b
         /\ list_buildings s' = (Return (l ++ [as_stored b]), s').
Proof.
  intros Hwf. eexists. split; [apply list_buildings_eq|].
  split; [reflexivity|]. split; [|split].
  - intros b. rewrite filter_In, Z.eqb_eq. tauto.
  - apply sorted_filter. rewrite building_ids. apply increasing_sorted.
    now apply wf_parts in Hwf.
  - intros n a f q t now b s' H.
    destruct (add_building_returns _ _ _ _ _ _ _ _ _ H) as (Hb & Hs' & _).
    split; [|split; [reflexivity|]].
    + intros x Hx. rewrite Hb. cbn [Building.id].
      now apply building_id_fresh.
    + rewrite list_buildings_eq, Hs', filter_app. do 3 f_equal.
      rewrite Hb. reflexivity.
Qed.

Lemma list_buildings_active_witness :
  exists l,
    list_buildings annex_store = (Return l, annex_store)
    /\ l = [Building.mk 1 "HQ" "1 Main St" 5 (Some 0%float) "office"
                        "2024-05-01T09:00:00" 1].
Proof.
  assert (Hwf : wf annex_store = true) by reflexivity.
  destruct (list_buildings_active annex_store Hwf) as (l & H1 & H2 & _).
  exists l. split; [exact H1 | exact H2].
Defined.

(** ** Registering buildings and assets: the successes *)

(** C8, as stated, fails. On a new database, a building registered with
    NaN as area is returned with that area and listed with [None] as area,
    so the listing does not hold the record returned; and with a number of
    floors beyond 64 bits no record is returned at all. *)
Lemma add_building_then_list_counterexample :
  add_building "Lab" "" 1 nan "lab" "2024-07-01T08:00:00" empty_store =
    (Return (Building.mk 1 "Lab" "" 1 (Some nan) "lab" "2024-07-01T08:00:00" 1),
     mkStore [ (1, "Lab", "", 1, None, "lab", "2024-07-01T08:00:00", 1) ]
             [] [] 1 0 0)
  /\ list_buildings
       (mkStore [ (1, "Lab", "", 1, None, "lab", "2024-07-01T08:00:00", 1) ]
                [] [] 1 0 0) =
     (Return [ Building.mk 1 "Lab" "" 1 None "lab" "2024-07-01T08:00:00" 1 ],
      mkStore [ (1, "Lab", "", 1, None, "lab", "2024-07-01T08:00:00", 1) ]
              [] [] 1 0 0)
  /\ ~ In (Building.mk 1 "Lab" "" 1 (Some nan) "lab" "2024-07-01T08:00:00" 1)
          [ Building.mk 1 "Lab" "" 1 None "lab" "2024-07-01T08:00:00" 1 ]
  /\ add_building "Lab" "" (2 ^ 63) 0%float "lab" "2024-07-01T08:00:00"
                  empty_store =
     (Raise (OverflowError
               "Python int too large to convert to SQLite INTEGER"),
      empty_store).
Proof.
  split; [reflexivity|]. split; [reflexivity|]. split; [|reflexivity].
  intros [H|[]]. discriminate H.
Qed.

(** C8, amended. In every store, [add_building] under a name no building
    bears and with a number of floors within the signed 64-bit range
    returns a record holding the arguments of the call, the time of the call
    as creation timestamp, an identifier greater than zero that no building
    of the store has, and active flag 1; [list_buildings] on the store it
    leaves returns the earlier listing followed by that record as the table
    holds it, hence by that very record when the area is neither NaN nor
    negative zero; on a store that held no building the listing is that
    one record. *)
Theorem add_building_then_list (s : store) (name address : string) (floors : Z)
    (sqft : float) (building_type now : string) :
  (forall b, In b (all_buildings s) -> Building.name b <> name) ->
  int64 floors = true ->
  exists b s',
    add_building name address floors sqft building_type now s = (Return b, s')
    /\ b = Building.mk (Building.id b) name address floors (Some sqft)
                       building_type now 1
    /\ 0 < Building.id b
    /\ Building.active b = 1
    /\ (forall x, In x (all_buildings s) -> Building.id x < Building.id b)
    /\ exists l0 l,
         list_buildings s = (Return l0, s)
         /\ list_buildings s' = (Return l, s')
         /\ l = l0 ++ [as_stored b]
         /\ In (as_stored b) l
         /\ (real_column sqft = Some sqft -> l = l0 ++ [b] /\ In b l)
         /\ (all_buildings s = [] -> l = [as_stored b]).
Proof.
  intros Hfresh F.
  assert (E : existsb (fun r => building_row_name r =? name) (tbl_buildings s)
              = false).
  { apply name_free_iff, name_unknown_rows, Hfresh. }
  pose proof (add_building_fresh s name address floors sqft building_type now
                F E) as Hadd. cbv zeta in Hadd.
  destruct (add_building_returns _ _ _ _ _ _ _ _ _ Hadd) as (_ & Hs' & _).
  eexists. eexists. split; [exact Hadd|].
  cbn [Building.id Building.active].
  split; [reflexivity|]. split; [apply next_rowid_pos|].
  split; [reflexivity|]. split; [intros x; apply building_id_fresh|].
  eexists. eexists. split; [apply list_buildings_eq|].
  split; [apply list_buildings_eq|].
  rewrite Hs', filter_app.
  cbn [filter as_stored Building.active Building.total_sqft Building.id
       Building.name Building.address Building.floors Building.building_type
       Building.created_at Z.eqb Pos.eqb].
  split; [reflexivity|]. split; [|split].
  - apply in_or_app. right. now left.
  - intros R. unfold as_stored. cbn. rewrite R.
    split; [reflexivity|]. apply in_or_app. right. now left.
  - intros ->. reflexivity.
Qed.

Lemma add_building_then_list_witness :
  let b := Building.mk 2 "Annex" "2 Side St" 3 (Some 1200%float) "office"
                       "2024-05-04T12:00:00" 1 in
  exists s',
    add_building "Annex" "2 Side St" 3 1200%float "office"
                 "2024-05-04T12:00:00" hq_store = (Return b, s')
    /\ exists l, list_buildings s' = (Return l, s') /\ In b l.
Proof.
  intros b.
  assert (H : forall x, In x (all_buildings hq_store) ->
                        Building.name x <> "Annex"%string).
  { intros x [<-|[]]. discriminate. }
  destruct (add_building_then_list hq_store "Annex" "2 Side St" 3 1200%float
              "office" "2024-05-04T12:00:00" H eq_refl)
    as (b' & s' & Hadd & Hb & _ & _ & _ & l0 & l & _ & Hl & _ & _ & Hin & _).
  assert (Eb : b' = b).
  { change (add_building "Annex" "2 Side St" 3 1200%float "office"
              "2024-05-04T12:00:00" hq_store)
      with (Return b, snd (add_building "Annex" "2 Side St" 3 1200%float
                             "office" "2024-05-04T12:00:00" hq_store)) in Hadd.
    now injection Hadd as <- _. }
  exists s'. rewrite <- Eb. split; [exact Hadd|].
  exists l. split; [exact Hl|]. apply Hin. vm_compute. reflexivity.
Defined.

(** C9, as stated, fails: with the room id 2^63 [add_asset] registers
    nothing; the driver refuses the parameter with [OverflowError] and the
    store is as it was. *)
Lemma add_asset_unconditional_counterexample :
  add_asset (2 ^ 63) "Ladder" "equipment" "" "" "good" ""
            "2024-05-04T12:00:00" hq_store =
    (Raise (OverflowError "Python int too large to convert to SQLite INTEGER"),
     hq_store).
Proof.
  reflexivity.
Qed.

(** C9, amended. In every store and for every room id within the signed
    64-bit range, whether some room has it or not, [add_asset] raises
    nothing: it returns a record holding the arguments of the call, the time
    of the call as last-inspected timestamp, and an identifier greater than
    zero that no asset of the store has; the store it leaves holds that
    record after the assets it held, and the same buildings and rooms. *)
Theorem add_asset_unconditional (s : store) (room_id : Z)
    (name asset_type serial_number purchase_date condition notes now : string) :
  int64 room_id = true ->
  exists a s',
    add_asset room_id name asset_type serial_number purchase_date condition
              notes now s = (Return a, s')
    /\ a = Asset.mk (Asset.id a) room_id name asset_type serial_number
                    purchase_date condition now notes
    /\ Asset.last_inspected a = now
    /\ 0 < Asset.id a
    /\ (forall x, In x (all_assets s) -> Asset.id x < Asset.id a)
    /\ all_assets s' = all_assets s ++ [a]
    /\ all_rooms s' = all_rooms s
    /\ all_buildings s' = all_buildings s.
Proof.
  intros Q. eexists. eexists. split; [now apply add_asset_eq|].
  cbn [Asset.id Asset.last_inspected].
  split; [reflexivity|]. split; [reflexivity|].
  split; [apply next_rowid_pos|]. split.
  - intros x Hx. apply next_rowid_fresh.
    unfold all_assets in Hx. apply in_map_iff in Hx as (r & <- & Hr).
    apply in_map_iff. exists r. split; [|exact Hr].
    now destruct r as [[[[[[[[i q] n] t] sn] pd] c] li] nt].
  - unfold all_assets, all_rooms, all_buildings.
    cbn [tbl_assets tbl_rooms tbl_buildings]. rewrite map_app. auto.
Qed.

(** No room of [hq_store] has id 99, and the asset is registered. *)
Lemma add_asset_unconditional_witness :
  (forall r, In r (all_rooms hq_store) -> Room.id r <> 99)
  /\ exists s',
       add_asset 99 "Ladder" "equipment" "" "" "good" ""
                 "2024-05-04T12:00:00" hq_store =
       (Return (Asset.mk 2 99 "Ladder" "equipment" "" "" "good"
                         "2024-05-04T12:00:00" ""), s').
Proof.
  split; [intros r [<-|[]]; discriminate|].
  destruct (add_asset_unconditional hq_store 99 "Ladder" "equipment" "" ""
              "good" "" "2024-05-04T12:00:00" eq_refl)
    as (a & s' & Hadd & _).
  exists s'.
  change (add_asset 99 "Ladder" "equipment" "" "" "good" ""
                    "2024-05-04T12:00:00" hq_store)
    with (Return (Asset.mk 2 99 "Ladder" "equipment" "" "" "good"
                           "2024-05-04T12:00:00" ""),
          snd (add_asset 99 "Ladder" "equipment" "" "" "good" ""
                         "2024-05-04T12:00:00" hq_store)) in Hadd |- *.
  f_equal. now injection Hadd as _ <-.
Defined.

(** * Further properties of the repository *)

(** ** Registering a room and finding it *)

(** A successful [add_room]: the building found, the record, and the store
    it leaves. *)
Lemma add_room_returns (s s' : store) (bn rn : string) (f c : Z)
    (t now : string) (r : Room.t) :
  add_room bn rn f c t now s = (Return r, s') ->
  exists row,
    In row (tbl_buildings s) /\ building_row_name row = bn
    /\ r = Room.mk (next_rowid (seq_rooms s) (map room_rowid (tbl_rooms s)))
                   (building_rowid row) rn f c t "available" now
    /\ all_rooms s' = all_rooms s ++ [r]
    /\ all_buildings s' = all_buildings s /\ all_assets s' = all_assets s.
Proof.
  intros H.
  destruct (add_room_cases s bn rn f c t now)
    as [(e & K)|(row & rest & _ & _ & E & K)];
    rewrite K in H; [discriminate H|].
  injection H as <- <-. exists row.
  assert (Hin : In row (filter (fun r => building_row_name r =? bn)
                               (tbl_buildings s))).
  { rewrite E. now left. }
  apply filter_In in Hin as [Hin Hn]. apply String.eqb_eq in Hn.
  unfold all_rooms, all_buildings, all_assets.
  cbn [tbl_buildings tbl_rooms tbl_assets]. rewrite map_app.
  repeat split; auto.
Qed.

Lemma room_ids (s : store) :
  map Room.id (all_rooms s) = map room_rowid (tbl_rooms s).
Proof.
  unfold all_rooms. rewrite map_map. apply map_ext.
  intros r. now destruct r as [[[[[[[i b] n] f] c] t] st] ca].
Qed.

Lemma room_id_fresh (s : store) (x : Room.t) :
  In x (all_rooms s) ->
  Room.id x < next_rowid (seq_rooms s) (map room_rowid (tbl_rooms s)).
Proof.
  intros Hx. apply next_rowid_fresh. rewrite <- room_ids. now apply in_map.
Qed.

(** The listing of the rooms of a named building, when the name is not
    empty and names are unique. *)
Lemma list_rooms_of (s : store) (b : Building.t) :
  NoDup (map building_row_name (tbl_buildings s)) ->
  In b (all_buildings s) -> Building.name b <> ""%string ->
  list_rooms (Some (Building.name b)) s =
  (Return (filter (fun x => (Room.building_id x =? Building.id b)%Z)
                  (all_rooms s)), s).
Proof.
  intros Hnd Hin Hn.
  destruct (name_known_row s b Hin) as (row & Hrow & Hrec & Hname).
  rewrite (list_rooms_found s _ row [] Hn (lookup_unique _ _ row Hnd Hrow Hname)).
  now rewrite <- Hrec, Building_id_of_row.
Qed.

(** X1. In a well-formed store, [add_room] under the non-empty name of a
    building of the store, with floor and capacity within the signed 64-bit
    range, returns a room of that building, available, with
    the arguments and the time of the call and an identifier above zero and
    above those of all rooms; listing the rooms of that building afterwards
    gives the earlier listing followed by the new room, and buildings and
    assets are as before. *)
Theorem add_room_then_list (s : store) (b : Building.t) (room_name : string)
    (floor capacity : Z) (room_type now : string) :
  wf s = true ->
  In b (all_buildings s) ->
  Building.name b <> ""%string ->
  int64 floor = true ->
  int64 capacity = true ->
  exists r s' l0,
    add_room (Building.name b) room_name floor capacity room_type now s
      = (Return r, s')
    /\ r = Room.mk (Room.id r) (Building.id b) room_name floor capacity
                   room_type "available" now
    /\ 0 < Room.id r
    /\ (forall x, In x (all_rooms s) -> Room.id x < Room.id r)
    /\ list_rooms (Some (Building.name b)) s = (Return l0, s)
    /\ list_rooms (Some (Building.name b)) s' = (Return (l0 ++ [r]), s')
    /\ all_buildings s' = all_buildings s
    /\ all_assets s' = all_assets s.
Proof.
  intros Hwf Hin Hn Fl Cp.
  assert (Hnd : NoDup (map building_row_name (tbl_buildings s))).
  { now apply wf_parts in Hwf. }
  destruct (name_known_row s b Hin) as (row & Hrow & Hrec & Hname).
  pose proof (add_room_found s (Building.name b) room_name floor capacity
                room_type now row [] Fl Cp
                (lookup_unique _ _ row Hnd Hrow Hname)) as Hadd.
  cbv zeta in Hadd.
  assert (Hid : building_rowid row = Building.id b).
  { now rewrite <- Hrec, Building_id_of_row. }
  rewrite Hid in Hadd.
  destruct (add_room_returns _ _ _ _ _ _ _ _ _ Hadd)
    as (_ & _ & _ & _ & Hrs & Hbs & Has).
  eexists. eexists. eexists. split; [exact Hadd|].
  cbn [Room.id]. split; [reflexivity|]. split; [apply next_rowid_pos|].
  split; [intros x; apply room_id_fresh|].
  split; [now apply list_rooms_of|].
  split; [|split; assumption].
  rewrite list_rooms_of.
  - rewrite Hrs, filter_app. cbn [filter Room.building_id].
    now rewrite Z.eqb_refl.
  - assumption.
  - rewrite Hbs. exact Hin.
  - exact Hn.
Qed.

Lemma add_room_then_list_witness :
  exists s',
    add_room "HQ" "Room 102" 1 8 "office" "2024-05-04T12:00:00" hq_store =
      (Return (Room.mk 2 1 "Room 102" 1 8 "office" "available"
                       "2024-05-04T12:00:00"), s')
    /\ list_rooms (Some "HQ"%string) s' =
         (Return [ Room.mk 1 1 "Room 101" 1 20 "office" "available"
                           "2024-05-01T09:01:00";
                   Room.mk 2 1 "Room 102" 1 8 "office" "available"
                           "2024-05-04T12:00:00" ], s').
Proof.
  assert (Hwf : wf hq_store = true) by reflexivity.
  assert (Hin : In (Building.mk 1 "HQ" "" 5 (Some 0%float) "office"
                                "2024-05-01T09:00:00" 1)
                   (all_buildings hq_store)) by (left; reflexivity).
  assert (Hn : "HQ"%string <> ""%string) by discriminate.
  destruct (add_room_then_list hq_store _ "Room 102" 1 8 "office"
              "2024-05-04T12:00:00" Hwf Hin Hn eq_refl eq_refl)
    as (r & s' & l0 & Hadd & _ & _ & _ & Hl0 & Hl & _).
  cbn [Building.name] in Hadd, Hl0, Hl.
  assert (Er : r = Room.mk 2 1 "Room 102" 1 8 "office" "available"
                           "2024-05-04T12:00:00").
  { change (add_room "HQ" "Room 102" 1 8 "office" "2024-05-04T12:00:00" hq_store)
      with (Return (Room.mk 2 1 "Room 102" 1 8 "office" "available"
                            "2024-05-04T12:00:00"),
            snd (add_room "HQ" "Room 102" 1 8 "office" "2024-05-04T12:00:00"
                          hq_store)) in Hadd.
    now injection Hadd as <- _. }
  assert (El : l0 = [ Room.mk 1 1 "Room 101" 1 20 "office" "available"
                              "2024-05-01T09:01:00" ]).
  { change (list_rooms (Some "HQ"%string) hq_store)
      with (Return [ Room.mk 1 1 "Room 101" 1 20 "office" "available"
                             "2024-05-01T09:01:00" ], hq_store) in Hl0.
    now injection Hl0 as <-. }
  exists s'. rewrite <- Er. split; [exact Hadd|].
  rewrite Hl, El. reflexivity.
Defined.

(** ** Rooms always belong to a building *)

Lemma rooms_reference_step (now : string) (c : command) (s : store) :
  rooms_reference_buildings s ->
  rooms_reference_buildings (snd (step now c s)).
Proof.
  intros H r Hr.
  destruct (step_tables now c s) as (Hb & Hrm & _).
  rewrite Hb. rewrite Hrm in Hr. apply in_app_or in Hr as [Hr|Hr].
  - destruct (H r Hr) as (b & Hin & E). exists b.
    split; [apply in_or_app; now left | exact E].
  - destruct c as [n a f q t | bn rn f c t | q n t sn pd c nt];
      cbn [step] in Hr.
    + destruct (add_building n a f q t now s) as [[x|e] s1]; destruct Hr.
    + destruct (add_room bn rn f c t now s) as [[x|e] s1] eqn:E;
        cbn in Hr; [|destruct Hr].
      destruct Hr as [<-|[]].
      destruct (add_room_returns _ _ _ _ _ _ _ _ _ E) as (row & Hrow & _ & -> & _).
      exists (Building_of_row row). split.
      * apply in_or_app. left. unfold all_buildings. now apply in_map.
      * now rewrite Building_id_of_row.
    + destruct (add_asset q n t sn pd c nt now s) as [[x|e] s1]; destruct Hr.
Qed.

(** X2. Referential integrity of rooms is an invariant: if every room of a
    store belongs to a building of the store, so does every room of the
    store any session leaves; in particular after any session on a new
    database. *)
Theorem rooms_reference_buildings_kept (s : store)
    (cs : list (string * command)) :
  rooms_reference_buildings s ->
  rooms_reference_buildings (snd (run cs s))
  /\ rooms_reference_buildings (snd (run cs empty_store)).
Proof.
  assert (K : forall cs s, rooms_reference_buildings s ->
                           rooms_reference_buildings (snd (run cs s))).
  { clear. induction cs as [|[now c] cs IH]; intros s H; [exact H|].
    rewrite run_cons. cbn [snd]. apply IH. now apply rooms_reference_step. }
  intros H. split; [now apply K|]. apply K. intros r [].
Qed.

Lemma rooms_reference_buildings_kept_witness :
  rooms_reference_buildings annex_store
  /\ rooms_reference_buildings (snd (run campus_session annex_store)).
Proof.
  assert (H : rooms_reference_buildings annex_store).
  { intros r [<-|[<-|[]]].
    - eexists. split; [left; reflexivity | reflexivity].
    - eexists. split; [right; left; reflexivity | reflexivity]. }
  split; [exact H|].
  exact (proj1 (rooms_reference_buildings_kept annex_store campus_session H)).
Defined.

(** X3. A room stays where it is: in a well-formed store, a room of a
    building with a non-empty name is in the listing of the rooms of that
    building, and still is after any session. *)
Theorem room_stays_listed (s : store) (b : Building.t) (r : Room.t)
    (cs : list (string * command)) :
  wf s = true ->
  In b (all_buildings s) ->
  Building.name b <> ""%string ->
  In r (all_rooms s) ->
  Room.building_id r = Building.id b ->
  exists l,
    list_rooms (Some (Building.name b)) (snd (run cs s))
      = (Return l, snd (run cs s))
    /\ In r l.
Proof.
  intros Hwf Hb Hn Hr E.
  pose proof (wf_run cs s Hwf) as Hwf'. apply wf_parts in Hwf'.
  destruct Hwf' as (_ & _ & _ & Hnd).
  destruct (run_tables cs s) as (Tb & Tr & _).
  eexists. split.
  - apply list_rooms_of; [exact Hnd | | exact Hn].
    rewrite Tb. apply in_or_app. now left.
  - apply filter_In. split.
    + rewrite Tr. apply in_or_app. now left.
    + now apply Z.eqb_eq.
Qed.

Lemma room_stays_listed_witness :
  exists l,
    list_rooms (Some "Annex"%string) (snd (run campus_session annex_store))
      = (Return l, snd (run campus_session annex_store))
    /\ In (Room.mk 2 2 "Vault" 1 2 "storage" "occupied" "2024-05-02T10:05:00") l.
Proof.
  apply (room_stays_listed annex_store
           (Building.mk 2 "Annex" "" 1 (Some 0%float) "storage" "2024-05-02T10:00:00" 0)
           (Room.mk 2 2 "Vault" 1 2 "storage" "occupied" "2024-05-02T10:05:00")
           campus_session).
  - reflexivity.
  - right. left. reflexivity.
  - discriminate.
  - right. left. reflexivity.
  - reflexivity.
Defined.

(** ** Identifiers count the registrations *)

Lemma max_rowid_le (ids : list Z) (m : Z) :
  0 <= m -> (forall i, In i ids -> i <= m) -> max_rowid ids <= m.
Proof.
  intros Hm. induction ids as [|x ids IH]; intros H; simpl; [exact Hm|].
  assert (x <= m) by (apply H; now left).
  assert (max_rowid ids <= m) by (apply IH; intros i Hi; apply H; now right).
  lia.
Qed.

Lemma consecutive_next (ids : list Z) (counter : Z) :
  consecutive ids counter ->
  next_rowid counter ids = Z.of_nat (S (List.length ids))
  /\ consecutive (ids ++ [next_rowid counter ids]) (next_rowid counter ids).
Proof.
  intros [Hids Hc].
  assert (Hnext : next_rowid counter ids = Z.of_nat (S (List.length ids))).
  { unfold next_rowid. subst counter.
    assert (max_rowid ids <= Z.of_nat (List.length ids)).
    { apply max_rowid_le; [lia|]. intros i Hi. rewrite Hids in Hi.
      apply in_map_iff in Hi as (k & <- & Hk). apply in_seq in Hk. lia. }
    lia. }
  split; [exact Hnext|]. unfold consecutive.
  rewrite length_app, Hnext. cbn [List.length].
  rewrite Nat.add_1_r. split; [|reflexivity].
  rewrite seq_S, map_app, <- Hids. reflexivity.
Qed.

Lemma dense_step (now : string) (c : command) (s : store) :
  dense s -> dense (snd (step now c s)).
Proof.
  intros (Hb & Hr & Ha).
  destruct c as [n a f q t | bn rn f c t | q n t sn pd c nt];
    cbn [step]; rewrite snd_lift.
  - destruct (add_building_cases s n a f q t now) as [(e & ->)|(_ & _ & ->)];
      cbn [snd]; unfold dense; [auto|].
    cbn [tbl_buildings tbl_rooms tbl_assets seq_buildings seq_rooms
         seq_assets].
    rewrite map_app. cbn [map building_rowid].
    repeat split; try apply Hr; try apply Ha;
      apply (consecutive_next _ _ Hb).
  - destruct (add_room_cases s bn rn f c t now)
      as [(e & ->)|(row & rest & _ & _ & _ & ->)];
      cbn [snd]; unfold dense; [auto|].
    cbn [tbl_buildings tbl_rooms tbl_assets seq_buildings seq_rooms
         seq_assets].
    rewrite map_app. cbn [map room_rowid].
    repeat split; try apply Hb; try apply Ha;
      apply (consecutive_next _ _ Hr).
  - destruct (add_asset_cases s q n t sn pd c nt now) as [(e & ->)|(_ & ->)];
      cbn [snd]; unfold dense; [auto|].
    cbn [tbl_buildings tbl_rooms tbl_assets seq_buildings seq_rooms
         seq_assets].
    rewrite map_app. cbn [map asset_rowid].
    repeat split; try apply Hb; try apply Hr;
      apply (consecutive_next _ _ Ha).
Qed.

Lemma dense_run (cs : list (string * command)) (s : store) :
  dense s -> dense (snd (run cs s)).
Proof.
  revert s. induction cs as [|[now c] cs IH]; intros s H; [exact H|].
  rewrite run_cons. cbn [snd]. apply IH. now apply dense_step.
Qed.

Lemma asset_ids (s : store) :
  map Asset.id (all_assets s) = map asset_rowid (tbl_assets s).
Proof.
  unfold all_assets. rewrite map_map. apply map_ext.
  intros r. now destruct r as [[[[[[[[i q] n] t] sn] pd] c] li] nt].
Qed.

(** X4. On a new database, identifiers count the successful registrations:
    after any session, the buildings of the store have the identifiers
    1, 2, ..., in order and without gap, whatever calls were turned down in
    between, and so have its rooms and its assets. *)
Theorem session_ids_consecutive (cs : list (string * command)) :
  let s := snd (run cs empty_store) in
  map Building.id (all_buildings s)
    = map Z.of_nat (seq 1 (List.length (all_buildings s)))
  /\ map Room.id (all_rooms s)
     = map Z.of_nat (seq 1 (List.length (all_rooms s)))
  /\ map Asset.id (all_assets s)
     = map Z.of_nat (seq 1 (List.length (all_assets s))).
Proof.
  intros s.
  assert (H : dense s).
  { apply dense_run. repeat split. }
  destruct H as ((Hb & _) & (Hr & _) & (Ha & _)).
  rewrite building_ids, room_ids, asset_ids.
  unfold all_buildings, all_rooms, all_assets.
  rewrite !length_map in *. auto.
Qed.

(** ** How a call moves the summary *)

(** X5. One mutating call moves the summary by one registration: a
    building registered adds one active building, a room registered adds
    one room and one available room, an asset registered adds one asset,
    and a call that raises leaves every count as it was. *)
Theorem status_after_call (db_path now : string) (c : command) (s : store) :
  exists st st',
    status db_path s = (Return st, s)
    /\ status db_path (snd (step now c s)) = (Return st', snd (step now c s))
    /\ match fst (step now c s) with
       | Return (CBuilding _) =>
           st' = Summary.mk (Summary.active_buildings st + 1)
                            (Summary.total_rooms st)
                            (Summary.available_rooms st)
                            (Summary.total_assets st) db_path
       | Return (CRoom _) =>
           st' = Summary.mk (Summary.active_buildings st)
                            (Summary.total_rooms st + 1)
                            (Summary.available_rooms st + 1)
                            (Summary.total_assets st) db_path
       | Return (CAsset _) =>
           st' = Summary.mk (Summary.active_buildings st)
                            (Summary.total_rooms st)
                            (Summary.available_rooms st)
                            (Summary.total_assets st + 1) db_path
       | Raise _ => st' = st
       end.
Proof.
  eexists. eexists. split; [apply status_eq|]. split; [apply status_eq|].
  destruct (step_tables now c s) as (Hb & Hr & Ha).
  destruct (step_created now c s) as (Fb & Fr).
  rewrite Hb, Hr, Ha, !filter_app, !length_app, !Nat2Z.inj_add.
  cbn [Summary.active_buildings Summary.total_rooms Summary.available_rooms
       Summary.total_assets].
  destruct (fst (step now c s)) as [[b|r|a]|e];
    cbn [created_buildings created_rooms created_assets flat_map app map
         filter as_stored Building.active List.length] in *;
    rewrite ?Z.add_0_r; try reflexivity.
  - inversion Fb as [|? ? [Eb _] _]; subst. rewrite Eb. reflexivity.
  - inversion Fr as [|? ? Er _]; subst. rewrite Er. reflexivity.
Qed.

(** ** Registering an asset and finding it *)

(** X6. [add_asset] with a room id other than 0 and within the signed
    64-bit range puts the new asset at the end of the listing of that room and of the listing of all assets, and
    leaves the listing of every other room as it was. *)
Theorem add_asset_then_list (s : store) (room_id : Z)
    (name asset_type serial_number purchase_date condition notes now : string) :
  room_id <> 0 ->
  int64 room_id = true ->
  exists a s' l0,
    add_asset room_id name asset_type serial_number purchase_date condition
              notes now s = (Return a, s')
    /\ list_assets (Some room_id) s = (Return l0, s)
    /\ list_assets (Some room_id) s' = (Return (l0 ++ [a]), s')
    /\ list_assets None s' = (Return (all_assets s ++ [a]), s')
    /\ forall q, q <> 0 -> q <> room_id ->
         fst (list_assets (Some q) s') = fst (list_assets (Some q) s).
Proof.
  intros Hq Q. eexists. eexists. eexists.
  split; [now apply add_asset_eq|].
  split; [now apply list_assets_some|].
  assert (T : forall x, all_assets
                (mkStore (tbl_buildings s) (tbl_rooms s)
                         (tbl_assets s ++ [x])
                         (seq_buildings s) (seq_rooms s)
                         (next_rowid (seq_assets s)
                                     (map asset_rowid (tbl_assets s))))
              = all_assets s ++ [Asset_of_row x]).
  { intros x. unfold all_assets. cbn [tbl_assets]. now rewrite map_app. }
  split; [|split].
  - rewrite list_assets_some by assumption. rewrite T, filter_app.
    cbn [filter Asset_of_row Asset.room_id]. now rewrite Z.eqb_refl.
  - rewrite list_assets_none, T. reflexivity.
  - intros q Hq0 Hne. destruct (int64 q) eqn:Q'.
    + rewrite !list_assets_some by assumption.
      cbn [fst]. rewrite T, filter_app.
      cbn [filter Asset_of_row Asset.room_id].
      destruct (Z.eqb_spec room_id q) as [E|_]; [now destruct Hne|].
      now rewrite app_nil_r.
    + now rewrite !list_assets_overflow.
Qed.

Lemma add_asset_then_list_witness :
  exists a s',
    add_asset 7 "Rope" "equipment" "" "" "good" "" "2024-05-04T12:00:00"
              annex_store = (Return a, s')
    /\ list_assets (Some 7) s' =
         (Return ([ Asset.mk 2 7 "Ladder" "equipment" "" "" "good"
                             "2024-05-03T08:00:00" "" ] ++ [a]), s').
Proof.
  assert (Hq : 7 <> 0) by discriminate.
  destruct (add_asset_then_list annex_store 7 "Rope" "equipment" "" "" "good"
              "" "2024-05-04T12:00:00" Hq eq_refl)
    as (a & s' & l0 & Hadd & Hl0 & Hl & _).
  assert (El : l0 = [ Asset.mk 2 7 "Ladder" "equipment" "" "" "good"
                               "2024-05-03T08:00:00" "" ]).
  { change (list_assets (Some 7) annex_store)
      with (Return [ Asset.mk 2 7 "Ladder" "equipment" "" "" "good"
                              "2024-05-03T08:00:00" "" ], annex_store) in Hl0.
    now injection Hl0 as <-. }
  exists a, s'. split; [exact Hadd|]. rewrite Hl, El. reflexivity.
Defined.

(** * Properties of the presentation shell *)

(** X7. [_cond_color] never fails: it gives the plain code [NC] exactly to
    the conditions outside excellent, good, fair and poor (spelled in lower
    case), and to those four the codes green, cyan, yellow and red. *)
Theorem cond_color_plain_iff (cond : string) :
  (_cond_color cond = NC
   <-> ~ In cond ["excellent"; "good"; "fair"; "poor"]%string)
  /\ _cond_color "excellent" = GREEN /\ _cond_color "good" = CYAN
  /\ _cond_color "fair" = YELLOW /\ _cond_color "poor" = RED
  /\ _cond_color "Good" = NC.
Proof.
  split; [|repeat split]. unfold _cond_color, dict_get.
  destruct (String.eqb_spec "excellent" cond) as [<-|N1].
  { split; [discriminate | intros H; destruct H; simpl; auto]. }
  destruct (String.eqb_spec "good" cond) as [<-|N2].
  { split; [discriminate | intros H; destruct H; simpl; auto]. }
  destruct (String.eqb_spec "fair" cond) as [<-|N3].
  { split; [discriminate | intros H; destruct H; simpl; auto]. }
  destruct (String.eqb_spec "poor" cond) as [<-|N4].
  { split; [discriminate | intros H; destruct H; simpl; auto]. }
  split; [|reflexivity]. intros _ [H|[H|[H|[H|[]]]]]; congruence.
Qed.

Section ShellProperties.

Variable format_0f : float -> string.
Variable json_dumps : Dump.t -> string.
Variable help_text : string.
Variable DB_PATH : string.

Local Notation "'run_main'" := (main format_0f json_dumps help_text DB_PATH).







(** X11. Options that change nothing: room id 0 and the empty building
    name are taken as absent, in the listing and in its heading alike, so
    the run prints what it prints without the option; and a listing takes
    no notice of the option meant for another: buildings of both, rooms of
    the room id, assets of the building name. *)
Theorem main_list_ignored_options (building : option string)
    (room_id : option Z) (now : string) (file : option store) :
  run_main (Args_list "assets" building (Some 0)) now file
    = run_main (Args_list "assets" None None) now file
  /\ run_main (Args_list "rooms" (Some ""%string) room_id) now file
     = run_main (Args_list "rooms" None None) now file
  /\ run_main (Args_list "buildings" building room_id) now file
     = run_main (Args_list "buildings" None None) now file
  /\ run_main (Args_list "rooms" building room_id) now file
     = run_main (Args_list "rooms" building None) now file
  /\ run_main (Args_list "assets" building room_id) now file
     = run_main (Args_list "assets" None room_id) now file.
Proof.
  unfold main. cbn [String.eqb Ascii.eqb Bool.eqb].
  rewrite list_assets_zero, list_assets_none, list_rooms_empty_name,
    list_rooms_none.
  repeat split.
Qed.







End ShellProperties.


